(** * gcode-transform: rotation and translation of G-code coordinates

    A shallow embedding of [transform_gcode] (gcode-transform.py) and the
    properties of its specification.

    Modelling choices.
    - Text.  A Python [str] is a [string]; a character is a code point
      below 256.  The predicates [str.isspace], the regex classes [\s],
      [\S], [\w] and [\b] are written out for that range.
    - Numbers.  The properties of the specification are stated in exact
      arithmetic, so a finite Python float is an exact rational in lowest
      terms ([Qc], whose equality is Leibniz equality): the arithmetic of
      the model does not round, overflow or underflow, and has no negative
      zero.  The program itself computes in doubles; a statement that
      needs the exactness says so.  The values [inf] and [nan] are not
      computed with: [float] reports the literals [inf] and [nan], and a
      decimal too large for a double, as [NonFinite], and a run that would
      compute with one ends in [OutsideModel], where the program goes on and
      prints [inf] or [nan].
    - numpy.  [np.radians], [np.cos], [np.sin] and the [repr] of a float
      used by the header are parameters of the engine; [np.linalg.inv] is
      the adjugate formula.
    - Control.  An exception is a constructor of [exn]; the loop over the
      input threads the cursor state and the list of emitted lines. *)

From Stdlib Require Import Bool Ascii String List ZArith NArith QArith Qcanon
  Qround Qabs Qpower Lia Lqa DecimalString DecimalN.
Import ListNotations.

Local Open Scope string_scope.

(** ** Characters *)

Definition code (c : ascii) : N := N_of_ascii c.

Definition in_range (lo hi : N) (c : ascii) : bool :=
  ((lo <=? code c) && (code c <=? hi))%N.

(** [str.isspace], which is also the regex class [\s] on [str] patterns. *)
Definition is_space (c : ascii) : bool :=
  in_range 9 13 c || in_range 28 32 c || (code c =? 133)%N || (code c =? 160)%N.

(** The ASCII digits, the only decimal digits below 256. *)
Definition is_digit (c : ascii) : bool := in_range 48 57 c.

(** The regex class [\w] on [str] patterns: alphanumeric or underscore. *)
Definition is_word (c : ascii) : bool :=
  is_digit c || in_range 65 90 c || in_range 97 122 c || (code c =? 95)%N
  || (code c =? 170)%N || (code c =? 178)%N || (code c =? 179)%N
  || (code c =? 181)%N || in_range 185 186 c || in_range 188 190 c
  || in_range 192 214 c || in_range 216 246 c || in_range 248 255 c.

(** The whitespace [float] strips before it parses: [Py_ISSPACE] on the
    ASCII range, and the two spaces above it, which are mapped to [" "]. *)
Definition is_float_space (c : ascii) : bool :=
  in_range 9 13 c || (code c =? 32)%N || (code c =? 133)%N || (code c =? 160)%N.

Definition lower (c : ascii) : ascii :=
  if in_range 65 90 c then ascii_of_N (code c + 32) else c.

Definition newline : ascii := "010"%char.

(** ** Strings *)

Definition is_empty (s : string) : bool :=
  match s with EmptyString => true | String _ _ => false end.

Fixpoint lstrip_by (p : ascii -> bool) (s : string) : string :=
  match s with
  | EmptyString => EmptyString
  | String c tl => if p c then lstrip_by p tl else s
  end.

Fixpoint rstrip_by (p : ascii -> bool) (s : string) : string :=
  match s with
  | EmptyString => EmptyString
  | String c tl =>
      match rstrip_by p tl with
      | EmptyString => if p c then EmptyString else String c EmptyString
      | r => String c r
      end
  end.

(** [s.rstrip('\n')] *)
Definition rstrip_nl (s : string) : string := rstrip_by (Ascii.eqb newline) s.

(** [s.strip()] *)
Definition strip (s : string) : string := lstrip_by is_space (rstrip_by is_space s).

(** [head, *rest = s.split(sep, 1)]: the text before the first [sep], and
    the text after it when there is one. *)
Fixpoint split_once (sep : ascii) (s : string) : string * option string :=
  match s with
  | EmptyString => (EmptyString, None)
  | String c tl =>
      if Ascii.eqb c sep then (EmptyString, Some tl)
      else let (h, r) := split_once sep tl in (String c h, r)
  end.

(** [s.split(sep)] for a one-character separator. *)
Fixpoint split_all (sep : ascii) (s : string) : list string :=
  match s with
  | EmptyString => [EmptyString]
  | String c tl =>
      if Ascii.eqb c sep then EmptyString :: split_all sep tl
      else match split_all sep tl with
           | h :: r => String c h :: r
           | [] => [String c EmptyString]
           end
  end.

(** The longest prefix of characters that are not whitespace: what a greedy
    [\S+] (or [\S*]) consumes. *)
Fixpoint take_nonspace (s : string) : string :=
  match s with
  | EmptyString => EmptyString
  | String c tl => if is_space c then EmptyString else String c (take_nonspace tl)
  end.

Definition starts_nonspace (s : string) : bool :=
  match s with
  | EmptyString => false
  | String c _ => negb (is_space c)
  end.

(** ** The regular expressions of the engine *)

(** [\b] right after a word character: the end of the text, or a character
    that is not a word character. *)
Definition boundary_after_word (rest : string) : bool :=
  match rest with
  | EmptyString => true
  | String c _ => negb (is_word c)
  end.

(** [re.match(r'G90\b', s)] *)
Definition re_match_G90 (s : string) : bool :=
  match s with
  | String "G" (String "9" (String "0" rest)) => boundary_after_word rest
  | _ => false
  end.

(** [re.match(r'G91\b', s)] *)
Definition re_match_G91 (s : string) : bool :=
  match s with
  | String "G" (String "9" (String "1" rest)) => boundary_after_word rest
  | _ => false
  end.

(** [re.match(r'[Gg][01]\b', s)] *)
Definition re_match_motion (s : string) : bool :=
  match s with
  | String g (String d rest) =>
      (Ascii.eqb g "G" || Ascii.eqb g "g") && (Ascii.eqb d "0" || Ascii.eqb d "1")
      && boundary_after_word rest
  | _ => false
  end.

(** [m = re.search(r' P(\S+)', s)] for an axis letter [P]; the result is
    [m.group(1)] of the leftmost match. *)
Fixpoint re_search_axis (p : ascii) (s : string) : option string :=
  match s with
  | EmptyString => None
  | String a tl =>
      match tl with
      | String c rest =>
          if Ascii.eqb a " " && Ascii.eqb c p && starts_nonspace rest
          then Some (take_nonspace rest)
          else re_search_axis p tl
      | EmptyString => None
      end
  end.

(** Does a match of [r' [XY]\S+'] start at the head of [String a tl]? *)
Definition xy_token_starts (a : ascii) (tl : string) : bool :=
  match tl with
  | String c rest =>
      Ascii.eqb a " " && (Ascii.eqb c "X" || Ascii.eqb c "Y") && starts_nonspace rest
  | EmptyString => false
  end.

(** [re.sub(r' [XY]\S+', '', s)], as a scan from left to right.  [inside]
    says that the scan is within a match, whose greedy [\S+] runs up to the
    next whitespace; the search resumes there. *)
Fixpoint re_sub_xy_from (inside : bool) (s : string) : string :=
  match s with
  | EmptyString => EmptyString
  | String a tl =>
      if inside && negb (is_space a) then re_sub_xy_from true tl
      else if xy_token_starts a tl then re_sub_xy_from true tl
      else String a (re_sub_xy_from false tl)
  end.

Definition re_sub_xy (s : string) : string := re_sub_xy_from false s.

(** ** Numbers *)

Definition Z2Qc (z : Z) : Qc := Q2Qc (inject_Z z).

(** A value of [float(s)]: an exact rational, or one of [inf], [-inf]
    and [nan], which the exact model does not compute with. *)
Inductive pyfloat : Type :=
  | Finite (q : Qc)
  | NonFinite.

(** The exceptions the program can raise. *)
Inductive exn : Type :=
  | ValueError            (* float: could not convert string to float *)
  | ArgumentTypeError     (* coord_pair: Center must be in 'XxY' format *)
  | LinAlgError.          (* np.linalg.inv: Singular matrix *)

(** *** [float(s)] *)

(** The digit separators of a numeric literal: an underscore is allowed
    only between two digits; they are removed before the text is parsed. *)
Fixpoint drop_underscores (prev : ascii) (s : string) : option string :=
  match s with
  | EmptyString => if Ascii.eqb prev "_" then None else Some EmptyString
  | String c tl =>
      if Ascii.eqb c "_" then
        if is_digit prev then drop_underscores c tl else None
      else if Ascii.eqb prev "_" && negb (is_digit c) then None
      else option_map (String c) (drop_underscores c tl)
  end.

Definition parse_sign (s : string) : bool * string :=
  match s with
  | String "-" tl => (true, tl)
  | String "+" tl => (false, tl)
  | _ => (false, s)
  end.

(** The leading digits of [s] and what follows them. *)
Fixpoint span_digits (s : string) : string * string :=
  match s with
  | EmptyString => (EmptyString, EmptyString)
  | String c tl =>
      if is_digit c then let (d, r) := span_digits tl in (String c d, r)
      else (EmptyString, s)
  end.

Definition digit_value (c : ascii) : Z := Z.of_N (code c) - 48.

Fixpoint digits_value (acc : Z) (s : string) : Z :=
  match s with
  | EmptyString => acc
  | String c tl => digits_value (10 * acc + digit_value c) tl
  end.

Fixpoint map_string (f : ascii -> ascii) (s : string) : string :=
  match s with
  | EmptyString => EmptyString
  | String c tl => String (f c) (map_string f tl)
  end.

Definition is_inf_or_nan (s : string) : bool :=
  let l := map_string lower s in
  String.eqb l "inf" || String.eqb l "infinity" || String.eqb l "nan".

(** The exponent part: nothing, or [e] or [E], an optional sign and at
    least one digit, up to the end of the text. *)
Definition parse_exponent (s : string) : option Z :=
  match s with
  | EmptyString => Some 0%Z
  | String c tl =>
      if Ascii.eqb c "e" || Ascii.eqb c "E" then
        let (neg, t1) := parse_sign tl in
        let (ds, t2) := span_digits t1 in
        if negb (is_empty ds) && is_empty t2
        then Some (if neg then - digits_value 0 ds else digits_value 0 ds)%Z
        else None
      else None
  end.

(** A decimal literal: sign, digits, an optional point and digits (at least
    one digit in all), an optional exponent.  Its value is exact. *)
Definition parse_decimal (s : string) : option Qc :=
  let (neg, s1) := parse_sign s in
  let (ip, s2) := span_digits s1 in
  let (fp, s3) := match s2 with
                  | String "." t => span_digits t
                  | _ => (EmptyString, s2)
                  end in
  if is_empty ip && is_empty fp then None
  else match parse_exponent s3 with
       | None => None
       | Some e =>
           let m := digits_value 0 (ip ++ fp) in
           let k := (e - Z.of_nat (String.length fp))%Z in
           let v := (inject_Z m * Qpower (inject_Z 10) k)%Q in
           Some (Q2Qc (if neg then Qopp v else v))
       end.

(** The least magnitude a decimal is read as infinite from: halfway
    between the largest double, (2^53 - 1) * 2^971, and 2^1024. *)
Definition overflow_bound : Q := inject_Z (2 ^ 1024 - 2 ^ 970).

Definition of_decimal (q : Qc) : pyfloat :=
  if Qle_bool overflow_bound (Qabs q) then NonFinite else Finite q.

(** [float(s)]; [None] is the [ValueError]. *)
Definition float (s : string) : option pyfloat :=
  let t := lstrip_by is_float_space (rstrip_by is_float_space s) in
  match drop_underscores zero t with
  | None => None
  | Some u =>
      if is_inf_or_nan (snd (parse_sign u)) then Some NonFinite
      else option_map of_decimal (parse_decimal u)
  end.

(** *** [format(x, '.Nf')] *)

(** Round to the nearest integer, a tie to the even one. *)
Definition round_half_even (q : Q) : Z :=
  let f := Qfloor q in
  match Qcompare (q - inject_Z f) (1 # 2) with
  | Lt => f
  | Gt => (f + 1)%Z
  | Eq => if Z.even f then f else (f + 1)%Z
  end.

Definition digit_char (d : Z) : ascii := ascii_of_N (Z.to_N (48 + d mod 10)).

(** The decimal digits of a natural number, at least one. *)
Definition decimal (n : Z) : string := NilZero.string_of_uint (N.to_uint (Z.to_N n)).

(** The last [p] decimal digits of [n], zero-padded on the left. *)
Fixpoint fixed_digits (p : nat) (n : Z) (acc : string) : string :=
  match p with
  | O => acc
  | S p' => fixed_digits p' (n / 10) (String (digit_char n) acc)
  end.

Definition scale (precision : nat) : Z := (10 ^ Z.of_nat precision)%Z.

(** The magnitude of [x] in units of [10^-precision], rounded. *)
Definition scaled_magnitude (precision : nat) (x : Qc) : Z :=
  round_half_even (Qabs x * inject_Z (scale precision)).

Definition sign_text (x : Qc) : string :=
  if Qlt_le_dec x 0 then "-" else "".

Definition fraction_text (precision : nat) (n : Z) : string :=
  match precision with
  | O => ""
  | S _ => "." ++ fixed_digits precision (n mod scale precision) ""
  end.

(** [fmt_str.format(x)] with [fmt_str = '{:.Nf}'], [N = precision]: a minus
    sign for a negative value, the integer digits, and a point followed by
    [N] digits when [N] is positive. *)
Definition format_coord (precision : nat) (x : Qc) : string :=
  let n := scaled_magnitude precision x in
  sign_text x ++ decimal (n / scale precision) ++ fraction_text precision n.

(** ** Homogeneous 3x3 matrices *)

Local Open Scope Qc_scope.

Definition vec3 : Type := (Qc * Qc * Qc)%type.

(** A matrix is the triple of its rows, as in [np.array([[..],[..],[..]])]. *)
Definition mat3 : Type := (vec3 * vec3 * vec3)%type.

Definition dot (u v : vec3) : Qc :=
  let '(a, b, c) := u in
  let '(x, y, z) := v in
  a * x + b * y + c * z.

Definition col (k : nat) (m : mat3) : vec3 :=
  let '((a, b, c), (d, e, f), (g, h, i)) := m in
  match k with
  | O => (a, d, g)
  | S O => (b, e, h)
  | _ => (c, f, i)
  end.

(** [m @ v] for a vector [v] *)
Definition mat_vec (m : mat3) (v : vec3) : vec3 :=
  let '(r0, r1, r2) := m in (dot r0 v, dot r1 v, dot r2 v).

(** [m @ n] *)
Definition mat_mul (m n : mat3) : mat3 :=
  let row r := (dot r (col 0 n), dot r (col 1 n), dot r (col 2 n)) in
  let '(r0, r1, r2) := m in (row r0, row r1, row r2).

Infix "@" := mat_mul (at level 40, left associativity).

(** [np.identity(3)] *)
Definition identity3 : mat3 := ((1, 0, 0), (0, 1, 0), (0, 0, 1)).

(** [np.array([[1, 0, tx], [0, 1, ty], [0, 0, 1]])] *)
Definition translation (tx ty : Qc) : mat3 := ((1, 0, tx), (0, 1, ty), (0, 0, 1)).

(** [np.array([[c, s, 0], [-s, c, 0], [0, 0, 1]])] *)
Definition rotation (c s : Qc) : mat3 := ((c, s, 0), (- s, c, 0), (0, 0, 1)).

Definition det (m : mat3) : Qc :=
  let '((a, b, c), (d, e, f), (g, h, i)) := m in
  a * (e * i - f * h) - b * (d * i - f * g) + c * (d * h - e * g).

(** [np.linalg.inv(m)] in exact arithmetic: the adjugate over the
    determinant; [None] is the [LinAlgError] of a singular matrix. *)
Definition inv (m : mat3) : option mat3 :=
  let '((a, b, c), (d, e, f), (g, h, i)) := m in
  let dt := det m in
  if Qc_eq_dec dt 0 then None
  else Some (((e * i - f * h) / dt, (c * h - b * i) / dt, (b * f - c * e) / dt),
             ((f * g - d * i) / dt, (a * i - c * g) / dt, (c * d - a * f) / dt),
             ((d * h - e * g) / dt, (b * g - a * h) / dt, (a * e - b * d) / dt)).

(** [V_t = A @ np.array([x, y, 1])], of which the program keeps the first
    two components. *)
Definition apply (A : mat3) (p : Qc * Qc) : Qc * Qc :=
  let '(x, y, _) := mat_vec A (fst p, snd p, 1) in (x, y).

(** ** Results *)

(** The result of a computation that may raise, or that leaves the exact
    model because it would compute with [inf] or [nan]. *)
Inductive result (A : Type) : Type :=
  | Ok (a : A)
  | Raise (e : exn)
  | Unmodelled.

Arguments Ok {A} a.
Arguments Raise {A} e.
Arguments Unmodelled {A}.

Definition bind {A B : Type} (r : result A) (k : A -> result B) : result B :=
  match r with
  | Ok a => k a
  | Raise e => Raise e
  | Unmodelled => Unmodelled
  end.

Notation "x <- r ;; k" := (bind r (fun x => k))
  (at level 61, r at next level, right associativity).

(** What is written to standard error. *)
Inductive diag : Type :=
  | Warning (text : string)
  | Error (e : exn).      (* the message of a handler, before [sys.exit(1)] *)

(** How a run ends. *)
Inductive outcome : Type :=
  | Printed (stderr : list diag) (stdout : list string)
      (* normal return: every line of [modified_lines] was printed *)
  | Exited (stderr : list diag) (status : Z)
      (* [sys.exit(status)] in a handler: nothing was printed *)
  | Uncaught (stderr : list diag) (e : exn)
      (* an exception no handler catches: traceback, status 1, nothing printed *)
  | OutsideModel (stderr : list diag).

Definition stdout_of (o : outcome) : list string :=
  match o with
  | Printed _ out => out
  | _ => []
  end.

Definition exit_status (o : outcome) : option Z :=
  match o with
  | Printed _ _ => Some 0%Z
  | Exited _ status => Some status
  | Uncaught _ _ => Some 1%Z
  | OutsideModel _ => None
  end.

(** ** The program *)

(** [coord_pair(string)]: [x, y = map(float, string.split('x'))] needs
    exactly two parts, both accepted by [float]; every [ValueError] becomes
    an [ArgumentTypeError]. *)
Definition coord_pair (s : string) : result (pyfloat * pyfloat) :=
  match split_all "x" s with
  | [a; b] =>
      match float a, float b with
      | Some x, Some y => Ok (x, y)
      | _, _ => Raise ArgumentTypeError
      end
  | _ => Raise ArgumentTypeError
  end.

(** The arguments of [transform_gcode]. *)
Record config : Type := {
  input_path : option string;
  rotate_deg : Qc;
  shift_x : Qc;
  shift_y : Qc;
  center_str : string;
  precision : nat
}.

(** The cursor: [pos], the tracked position, and [rel], which is [None]
    until a mode command is seen, then [Some false] after G90 and
    [Some true] after G91. *)
Record state : Type := {
  pos : Qc * Qc;
  rel : option bool
}.

Definition initial_state : state := {| pos := (0, 0); rel := None |}.

Definition set_rel (st : state) (b : bool) : state :=
  {| pos := pos st; rel := Some b |}.

(** The truth value of [rel] in [if rel:]. *)
Definition truthy (r : option bool) : bool :=
  match r with
  | Some true => true
  | _ => false
  end.

Definition is_some {A : Type} (o : option A) : bool :=
  match o with Some _ => true | None => false end.

Definition or_else {A : Type} (o : option A) (d : A) : A :=
  match o with Some a => a | None => d end.

(** [rotate_deg != 0.0] *)
Definition is_rotation_requested (cfg : config) : bool :=
  if Qc_eq_dec (rotate_deg cfg) 0 then false else true.

(** [shift_x != 0.0 or shift_y != 0.0] *)
Definition is_shift_requested (cfg : config) : bool :=
  (if Qc_eq_dec (shift_x cfg) 0 then false else true)
  || (if Qc_eq_dec (shift_y cfg) 0 then false else true).

Definition no_transform_warning : string :=
  "Warning: No rotation or shift requested. File will be copied.".

(** Lines 38-39: what is on standard error before the loop. *)
Definition warnings_of (cfg : config) : list diag :=
  if negb (is_rotation_requested cfg) && negb (is_shift_requested cfg)
  then [Warning no_transform_warning] else [].

Section Engine.

(** numpy's [np.radians], [np.cos] and [np.sin], and the text of a float
    in an f-string. *)
Variables np_radians np_cos np_sin : Qc -> Qc.
Variable float_repr : Qc -> string.

(** *** 1-2. The transformation matrix *)

(** [R], [rT] and [rT_inv] (lines 43-57). *)
Definition rotation_parts (cfg : config) (center : pyfloat * pyfloat)
  : result (mat3 * mat3 * mat3) :=
  if is_rotation_requested cfg then
    match center with
    | (Finite cx, Finite cy) =>
        let angle := np_radians (rotate_deg cfg) in
        let R := rotation (np_cos angle) (np_sin angle) in
        let rT := translation cx cy in
        match inv rT with
        | Some rT_inv => Ok (R, rT, rT_inv)
        | None => Raise LinAlgError
        end
    | _ => Unmodelled
    end
  else Ok (identity3, identity3, identity3).

(** [A = mT @ rT @ R @ rT_inv] (lines 60-65). *)
Definition build_transform (cfg : config) (center : pyfloat * pyfloat)
  : result mat3 :=
  parts <- rotation_parts cfg center ;;
  let '(R, rT, rT_inv) := parts in
  let mT := translation (shift_x cfg) (shift_y cfg) in
  Ok (mT @ rT @ R @ rT_inv).

(** *** 4. One line of the loop *)

(** Lines 117-121 for one axis letter: the token found by the search, if
    any, is given to [float]. *)
Definition parse_axis (p : ascii) (clean_line : string) : result (option pyfloat) :=
  match re_search_axis p clean_line with
  | None => Ok None
  | Some tok =>
      match float tok with
      | Some v => Ok (Some v)
      | None => Raise ValueError
      end
  end.

(** The coordinates the arithmetic works on; [None] when one is not
    finite. *)
Definition finite_coord (c : option pyfloat) : option (option Qc) :=
  match c with
  | None => Some None
  | Some (Finite q) => Some (Some q)
  | Some NonFinite => None
  end.

(** Lines 127-174: the destination before the transformation, the two
    transformed points, the new cursor position and the new tokens of a
    motion line with the coordinates [cx] and [cy]. *)
Definition motion_tokens (cfg : config) (A : mat3) (st : state)
    (cx cy : option Qc) : (Qc * Qc) * option string * option string :=
  let '(current_pos_x, current_pos_y) := pos st in
  let dest_x := if truthy (rel st) then current_pos_x + or_else cx 0
                else or_else cx current_pos_x in
  let dest_y := if truthy (rel st) then current_pos_y + or_else cy 0
                else or_else cy current_pos_y in
  let '(current_pos_x_t, current_pos_y_t) :=
    apply A (current_pos_x, current_pos_y) in
  let '(dest_x_t, dest_y_t) := apply A (dest_x, dest_y) in
  let fmt := format_coord (precision cfg) in
  let new_x_str :=
    if truthy (rel st)
    then option_map (fun _ => "X" ++ fmt (dest_x_t - current_pos_x_t))%string cx
    else option_map (fun _ => "X" ++ fmt dest_x_t)%string cx in
  let new_y_str :=
    if truthy (rel st)
    then option_map (fun _ => "Y" ++ fmt (dest_y_t - current_pos_y_t))%string cy
    else option_map (fun _ => "Y" ++ fmt dest_y_t)%string cy in
  ((dest_x_t, dest_y_t), new_x_str, new_y_str).

(** Lines 177-189: the old tokens are removed, the new ones and the
    comment are appended, and the whole is stripped. *)
Definition rebuild (clean_line : string) (comment : option string)
    (new_x_str new_y_str : option string) : string :=
  let new_line := re_sub_xy clean_line in
  let new_line := match new_x_str with
                  | Some t => (new_line ++ " " ++ t)%string
                  | None => new_line
                  end in
  let new_line := match new_y_str with
                  | Some t => (new_line ++ " " ++ t)%string
                  | None => new_line
                  end in
  let new_line := match comment with
                  | Some c => (new_line ++ " ;" ++ c)%string
                  | None => new_line
                  end in
  strip new_line.

(** Lines 127-189 for one motion line. *)
Definition transform_motion (cfg : config) (A : mat3) (st : state)
    (clean_line : string) (comment : option string) (cx cy : option Qc)
  : state * string :=
  let '(new_pos, new_x_str, new_y_str) := motion_tokens cfg A st cx cy in
  ({| pos := new_pos; rel := rel st |},
   rebuild clean_line comment new_x_str new_y_str).

(** The body of [for line in fd] (lines 89-189): the new cursor and the
    line appended to [modified_lines]. *)
Definition process_line (cfg : config) (A : mat3) (st : state) (line : string)
  : result (state * string) :=
  let original_line := rstrip_nl line in
  let (before, comment) := split_once ";" original_line in
  let clean_line := strip before in
  if is_empty clean_line then Ok (st, original_line)
  else if re_match_G90 clean_line then Ok (set_rel st false, original_line)
  else if re_match_G91 clean_line then Ok (set_rel st true, original_line)
  else if negb (re_match_motion clean_line) then Ok (st, original_line)
  else
    x <- parse_axis "X" clean_line ;;
    y <- parse_axis "Y" clean_line ;;
    let seen_xy := is_some x || is_some y in
    if negb seen_xy
       || (negb (is_rotation_requested cfg) && negb (is_shift_requested cfg))
    then Ok (st, original_line)
    else
      match finite_coord x, finite_coord y with
      | Some cx, Some cy => Ok (transform_motion cfg A st clean_line comment cx cy)
      | _, _ => Unmodelled
      end.

(** The loop: the cursor after the last line and the lines appended. *)
Fixpoint process_lines (cfg : config) (A : mat3) (st : state) (lines : list string)
  : result (state * list string) :=
  match lines with
  | [] => Ok (st, [])
  | line :: rest =>
      r <- process_line cfg A st line ;;
      let (st1, out) := r in
      r' <- process_lines cfg A st1 rest ;;
      let (st2, outs) := r' in
      Ok (st2, out :: outs)
  end.

Definition degree_sign : string := String (ascii_of_N 176) "".

(** The four entries the program puts in [modified_lines] before the loop
    (lines 83-86); the last one ends with a newline of its own. *)
Definition header (cfg : config) : list string :=
  [ "; G-code file modified by gcode-transform.py";
    "; Original: " ++ or_else (input_path cfg) "None";
    "; Center: " ++ center_str cfg ++ ", Rotation: "
      ++ float_repr (rotate_deg cfg) ++ degree_sign;
    "; Translation: X=" ++ format_coord 3 (shift_x cfg) ++ "mm, Y="
      ++ format_coord 3 (shift_y cfg) ++ "mm" ++ String newline "" ]%string.

(** [transform_gcode], for an input that opens and yields [lines]. *)
Definition transform_gcode (cfg : config) (lines : list string) : outcome :=
  match coord_pair (center_str cfg) with
  | Raise e => Uncaught [] e
  | Unmodelled => OutsideModel []
  | Ok center =>
      let warnings := warnings_of cfg in
      match build_transform cfg center with
      | Raise e => Uncaught warnings e
      | Unmodelled => OutsideModel warnings
      | Ok A =>
          match process_lines cfg A initial_state lines with
          | Ok (_, body) => Printed warnings (header cfg ++ body)
          | Raise e => Exited (warnings ++ [Error e]) 1
          | Unmodelled => OutsideModel warnings
          end
      end
  end.

End Engine.

(** ** A rational stand-in for numpy's trigonometry

    Bhaskara's approximation of the sine, with 355/113 for pi.  It is exact
    at the multiples of a right angle, and lets the engine run. *)
Module Bhaskara.

Definition pi : Qc := Q2Qc (355 # 113).

Definition radians (d : Qc) : Qc := d * pi / Z2Qc 180.

Definition sin_half_turn (x : Qc) : Qc :=
  Z2Qc 16 * x * (pi - x) / (Z2Qc 5 * pi * pi - Z2Qc 4 * x * (pi - x)).

Definition sin (x : Qc) : Qc :=
  let k := Qfloor (x / pi) in
  let r := x - Z2Qc k * pi in
  if Z.even k then sin_half_turn r else - sin_half_turn r.

Definition cos (x : Qc) : Qc := sin (x + pi / Z2Qc 2).

Definition repr (x : Qc) : string := format_coord 1 x.

Definition run : config -> list string -> outcome :=
  transform_gcode radians cos sin repr.

End Bhaskara.

(** ** Vocabulary of the properties *)

(** A line of text as the iteration over the input yields it, with its
    newline. *)
Definition line (s : string) : string := s ++ String newline "".

Fixpoint newlines (n : nat) : string :=
  match n with
  | O => ""
  | S n' => String newline (newlines n')
  end.

(** The text the classification looks at (lines 89-91), and the comment. *)
Definition clean_of (l : string) : string :=
  strip (fst (split_once ";" (rstrip_nl l))).

Definition comment_of (l : string) : option string :=
  snd (split_once ";" (rstrip_nl l)).

(** The three kinds of line the loop tells apart (lines 93-110). *)
Inductive kind : Type :=
  | ModeSwitch (relative : bool)
  | Motion
  | PassThrough.

Definition classify (l : string) : kind :=
  let clean_line := clean_of l in
  if is_empty clean_line then PassThrough
  else if re_match_G90 clean_line then ModeSwitch false
  else if re_match_G91 clean_line then ModeSwitch true
  else if re_match_motion clean_line then Motion
  else PassThrough.

(** The token of axis [p], when the line has one that [float] rejects. *)
Definition malformed_token (p : ascii) (l : string) : bool :=
  match re_search_axis p (clean_of l) with
  | Some tok => negb (is_some (float tok))
  | None => false
  end.

(** A motion line with an X or a Y token that is not a number. *)
Definition malformed_motion (l : string) : bool :=
  match classify l with
  | Motion => malformed_token "X" l || malformed_token "Y" l
  | _ => false
  end.

Definition contains (c : ascii) (s : string) : bool :=
  existsb (Ascii.eqb c) (list_ascii_of_string s).

Definition all_digits (s : string) : bool :=
  forallb is_digit (list_ascii_of_string s).

(** No rotation and no shift. *)
Definition no_transform (cfg : config) : Prop :=
  rotate_deg cfg = 0 /\ shift_x cfg = 0 /\ shift_y cfg = 0.

(** The cursor after a line that moves nothing: only a mode command
    changes it. *)
Definition after_mode (st : state) (l : string) : state :=
  match classify l with
  | ModeSwitch b => set_rel st b
  | _ => st
  end.

(** A center as the specification describes it: two numbers and a single
    [x] between them. *)
Definition center_well_formed (s : string) : bool :=
  match split_once "x" s with
  | (a, Some b) => negb (contains "x" b) && is_some (float a) && is_some (float b)
  | (_, None) => false
  end.

(** The tokens a relative motion line keeps when its deltas are not
    changed: the deltas of the input, formatted. *)
Definition input_delta_tokens (precision : nat) (cx cy : option Qc)
  : option string * option string :=
  (option_map (fun d => "X" ++ format_coord precision d) cx,
   option_map (fun d => "Y" ++ format_coord precision d) cy).

(** The output expected for a relative motion line under a pure
    translation: it does not depend on the cursor. *)
Definition input_delta_line (cfg : config) (l : string) : result string :=
  x <- parse_axis "X" (clean_of l) ;;
  y <- parse_axis "Y" (clean_of l) ;;
  if negb (is_some x || is_some y) || negb (is_shift_requested cfg)
  then Ok (rstrip_nl l)
  else match finite_coord x, finite_coord y with
       | Some cx, Some cy =>
           let (tx, ty) := input_delta_tokens (precision cfg) cx cy in
           Ok (rebuild (clean_of l) (comment_of l) tx ty)
       | _, _ => Unmodelled
       end.

Fixpoint traverse {A B : Type} (f : A -> result B) (l : list A) : result (list B) :=
  match l with
  | [] => Ok []
  | a :: rest =>
      b <- f a ;;
      bs <- traverse f rest ;;
      Ok (b :: bs)
  end.

Definition fmap {A B : Type} (f : A -> B) (r : result A) : result B :=
  a <- r ;; Ok (f a).

(** The mode after a line: a mode command sets it, every other line keeps
    it. *)
Definition mode_after (r : option bool) (l : string) : option bool :=
  match classify l with
  | ModeSwitch b => Some b
  | _ => r
  end.

(** The mode after a sequence of lines. *)
Definition last_mode (r : option bool) (lines : list string) : option bool :=
  fold_left mode_after lines r.

(** Does the text have a token that one of the two searches of lines
    116-121 finds? *)
Definition has_xy_token (s : string) : bool :=
  is_some (re_search_axis "X" s) || is_some (re_search_axis "Y" s).

(** [rotate_deg != 0.0 or shift_x != 0.0 or shift_y != 0.0] *)
Definition transform_requested (cfg : config) : bool :=
  is_rotation_requested cfg || is_shift_requested cfg.

(** The text is empty or begins with whitespace. *)
Definition begins_blank (s : string) : bool :=
  match s with
  | EmptyString => true
  | String c _ => is_space c
  end.

(** Every token [' [XY]\S+'] of a text, in order: the letter and the text
    after it.  (Two matches cannot overlap: a token has no blank and the
    next one begins with one.) *)
Fixpoint all_axis_tokens (s : string) : list (ascii * string) :=
  match s with
  | EmptyString => []
  | String a tl =>
      match tl with
      | String c rest =>
          if xy_token_starts a tl
          then (c, take_nonspace rest) :: all_axis_tokens tl
          else all_axis_tokens tl
      | EmptyString => []
      end
  end.

(** The text is read by [float] as a real number, neither rejected nor
    infinite nor [nan]. *)
Definition real_number (s : string) : bool :=
  match float s with
  | Some (Finite _) => true
  | _ => false
  end.

(** A motion line that carries, anywhere, an X or a Y token whose value is
    not a real number. *)
Definition carries_unparsable_token (l : string) : bool :=
  match classify l with
  | Motion => existsb (fun t => negb (real_number (snd t))) (all_axis_tokens (clean_of l))
  | _ => false
  end.

(** A center made of two real numbers and a single [x] between them. *)
Definition two_real_numbers (s : string) : bool :=
  match split_once "x" s with
  | (a, Some b) => negb (contains "x" b) && real_number a && real_number b
  | (_, None) => false
  end.

(** ** Scenarios *)

(** A quarter turn about the origin, three digits. *)
Definition quarter_turn (path : option string) : config :=
  {| input_path := path; rotate_deg := Z2Qc 90; shift_x := 0; shift_y := 0;
     center_str := "0x0"; precision := 3 |}.

(** A pure translation, default center, three digits. *)
Definition shift_by (path : option string) (sx sy : Z) : config :=
  {| input_path := path; rotate_deg := 0; shift_x := Z2Qc sx; shift_y := Z2Qc sy;
     center_str := "125x100"; precision := 3 |}.

(** ** Properties *)

Ltac qc_eval := apply Qc_is_canon; vm_compute; reflexivity.

(** Two points are equal when their coordinates have the same value. *)
Lemma point_eq (p q : Qc * Qc) :
  (fst p == fst q)%Q -> (snd p == snd q)%Q -> p = q.
Proof.
  destruct p, q. cbn [fst snd]. intros H1 H2.
  apply Qc_is_canon in H1. apply Qc_is_canon in H2. congruence.
Qed.

Ltac point_eval := apply point_eq; vm_compute; reflexivity.

Lemma Qc_one_neq_zero : (1 : Qc) <> 0.
Proof. intro H. discriminate H. Qed.

Lemma det_translation (tx ty : Qc) : det (translation tx ty) = 1.
Proof. unfold det, translation. ring. Qed.

Ltac split_tuples :=
  repeat match goal with
         | |- Some _ = Some _ => apply f_equal
         | |- Ok _ = Ok _ => apply f_equal
         | |- (_, _) = (_, _) => apply f_equal2
         end.

(** The inverse of a translation is the opposite translation. *)
Lemma inv_translation (tx ty : Qc) :
  inv (translation tx ty) = Some (translation (- tx) (- ty)).
Proof.
  unfold inv, translation. cbv iota beta.
  fold (translation tx ty). rewrite det_translation.
  destruct (Qc_eq_dec 1 0) as [E | _]; [elim (Qc_one_neq_zero E)|].
  split_tuples; field; apply Qc_one_neq_zero.
Qed.

Lemma mat_mul_identity_r (m : mat3) : m @ identity3 = m.
Proof.
  destruct m as [[[[a b] c] [[d e] f]] [[g h] i]].
  unfold mat_mul, identity3, col, dot. split_tuples; ring.
Qed.

Lemma is_rotation_requested_false (cfg : config) :
  rotate_deg cfg = 0 -> is_rotation_requested cfg = false.
Proof.
  intro H. unfold is_rotation_requested. rewrite H.
  destruct (Qc_eq_dec 0 0) as [_ | N]; [reflexivity | elim N; reflexivity].
Qed.

Lemma is_rotation_requested_true (cfg : config) :
  rotate_deg cfg <> 0 -> is_rotation_requested cfg = true.
Proof.
  intro H. unfold is_rotation_requested.
  destruct (Qc_eq_dec (rotate_deg cfg) 0) as [E | _]; [elim (H E) | reflexivity].
Qed.

Section Properties.

Variables np_radians np_cos np_sin : Qc -> Qc.
Variable float_repr : Qc -> string.

Local Abbreviation build := (build_transform np_radians np_cos np_sin).
Local Abbreviation run := (transform_gcode np_radians np_cos np_sin float_repr).

(** *** The transformation matrix *)

Lemma build_transform_rotation (cfg : config) (cx cy : Qc) :
  rotate_deg cfg <> 0 ->
  build cfg (Finite cx, Finite cy) =
  Ok (translation (shift_x cfg) (shift_y cfg) @ translation cx cy
      @ rotation (np_cos (np_radians (rotate_deg cfg)))
                 (np_sin (np_radians (rotate_deg cfg)))
      @ translation (- cx) (- cy)).
Proof.
  intro H. unfold build, build_transform, rotation_parts.
  rewrite (is_rotation_requested_true cfg H), inv_translation. reflexivity.
Qed.

Lemma build_transform_no_rotation (cfg : config) (center : pyfloat * pyfloat) :
  rotate_deg cfg = 0 ->
  build cfg center =
  Ok (translation (shift_x cfg) (shift_y cfg) @ identity3 @ identity3 @ identity3).
Proof.
  intro H. unfold build, build_transform, rotation_parts.
  rewrite (is_rotation_requested_false cfg H). reflexivity.
Qed.

(** C3 - the matrix the builder produces.  With a rotation it is
    [Translate(shift) @ Translate(+center) @ R @ Translate(-center)], where
    [R] has the cosine of the angle on its diagonal, the sine in the upper
    right and its opposite in the lower left; a point is thus rotated
    about the center and then shifted.  Without a rotation the three inner
    factors are the identity, for any center. *)
Theorem transform_construction (cfg : config) (cx cy : Qc) :
  let c := np_cos (np_radians (rotate_deg cfg)) in
  let s := np_sin (np_radians (rotate_deg cfg)) in
  let sx := shift_x cfg in
  let sy := shift_y cfg in
  if Qc_eq_dec (rotate_deg cfg) 0 then
    forall center,
      build cfg center
      = Ok (translation sx sy @ identity3 @ identity3 @ identity3)
      /\ forall x y, apply (translation sx sy @ identity3 @ identity3 @ identity3) (x, y)
                     = (x + sx, y + sy)
  else
    let A := translation sx sy @ translation cx cy
             @ ((c, s, 0), (- s, c, 0), (0, 0, 1))
             @ translation (- cx) (- cy) in
    build cfg (Finite cx, Finite cy) = Ok A
    /\ forall x y, apply A (x, y)
                   = (c * (x - cx) + s * (y - cy) + cx + sx,
                      - s * (x - cx) + c * (y - cy) + cy + sy).
Proof.
  intros c s sx sy.
  destruct (Qc_eq_dec (rotate_deg cfg) 0) as [E | N].
  - intro center. split.
    + apply build_transform_no_rotation; exact E.
    + intros x y. repeat rewrite mat_mul_identity_r.
      unfold apply, mat_vec, translation, dot, fst, snd. split_tuples; ring.
  - split.
    + apply build_transform_rotation; exact N.
    + intros x y.
      unfold apply, mat_vec, mat_mul, translation, col, dot, fst, snd.
      split_tuples; ring.
Qed.

(** C2 - the sign of the rotation and the end-to-end scenario.  When the
    cosine and the sine of the angle of 90 degrees are exactly 0 and 1,
    the matrix built for a rotation of 90 degrees about (0,0) sends
    (10, 0) to (0, -10), and the input G90, G1 X10 Y0, G1 X10 Y10 is
    printed, after the header, as G90, G1 X0.000 Y-10.000,
    G1 X10.000 Y-10.000. *)
Theorem rotation_sign_and_scenario (path : option string) :
  np_cos (np_radians (Z2Qc 90)) = 0 ->
  np_sin (np_radians (Z2Qc 90)) = 1 ->
  (exists A, build (quarter_turn path) (Finite 0, Finite 0) = Ok A
             /\ apply A (Z2Qc 10, 0) = (0, - Z2Qc 10))
  /\ run (quarter_turn path) [line "G90"; line "G1 X10 Y0"; line "G1 X10 Y10"]
     = Printed [] (header float_repr (quarter_turn path)
                   ++ ["G90"; "G1 X0.000 Y-10.000"; "G1 X10.000 Y-10.000"]).
Proof.
  intros Hc Hs. split.
  - eexists. split.
    + unfold build_transform, rotation_parts. cbn [rotate_deg quarter_turn].
      rewrite Hc, Hs. vm_compute. reflexivity.
    + unfold apply, mat_vec, dot, fst, snd. split_tuples; qc_eval.
  - unfold transform_gcode, build_transform, rotation_parts.
    cbn [rotate_deg quarter_turn]. rewrite Hc, Hs. vm_compute. reflexivity.
Qed.
(** *** The cursor in absolute mode *)

(** C1 - the tracked position after single-axis lines, evaluated.  Under
    a translation by (0, 5), after G90, G1 X10 Y0, G1 X20 the true
    destination is (20, 0), whose transform is (20, 5); the tracked
    position is (20, 10): the absent Y was carried forward from the
    position already transformed and was transformed again.  Under a
    quarter turn the same lines print X-10.000 for the last one, where
    the transform of (20, 0) is (0, -20). *)
Theorem absolute_cursor_drift (path : option string) :
  let cfg := shift_by path 0 5 in
  let quarter := rotation 0 1 in
  (exists A st,
     build cfg (Finite (Z2Qc 125), Finite (Z2Qc 100)) = Ok A
     /\ process_lines cfg A initial_state
          [line "G90"; line "G1 X10 Y0"; line "G1 X20"]
        = Ok (st, ["G90"; "G1 X10.000 Y5.000"; "G1 X20.000"])
     /\ pos st = (Z2Qc 20, Z2Qc 10)
     /\ apply A (Z2Qc 20, 0) = (Z2Qc 20, Z2Qc 5))
  /\ (exists st,
     process_lines (quarter_turn path) quarter initial_state
          [line "G90"; line "G1 X10 Y0"; line "G1 X20"]
        = Ok (st, ["G90"; "G1 X0.000 Y-10.000"; "G1 X-10.000"])
     /\ pos st = (- Z2Qc 10, - Z2Qc 20)
     /\ apply quarter (Z2Qc 20, 0) = (0, - Z2Qc 20)).
Proof.
  intros cfg quarter. split.
  - eexists. eexists. split; [| split; [| split]].
    + rewrite build_transform_no_rotation by reflexivity. reflexivity.
    + vm_compute. reflexivity.
    + point_eval.
    + point_eval.
  - eexists. split; [| split].
    + vm_compute. reflexivity.
    + point_eval.
    + point_eval.
Qed.

(** *** The mode commands *)

(** C8 - the mode commands in lower case, evaluated.  [g90] and [g91]
    are copied and leave the mode as it was, where [G91] sets the relative
    mode; after [g91] the line G1 X10 is therefore treated as absolute
    under a translation by (5, 0) and printed as G1 X15.000, where after
    [G91] it is printed as G1 X10.000. *)
Theorem lowercase_mode_command_ignored (cfg : config) (A : mat3) (st : state) :
  process_line cfg A st (line "g91") = Ok (st, "g91")
  /\ process_line cfg A st (line "g90") = Ok (st, "g90")
  /\ process_line cfg A st (line "G91") = Ok (set_rel st true, "G91")
  /\ process_line cfg A st (line "G90") = Ok (set_rel st false, "G90")
  /\ fmap snd (process_lines (shift_by None 5 0) (translation (Z2Qc 5) 0)
                 initial_state [line "g91"; line "G1 X10"])
     = Ok ["g91"; "G1 X15.000"]
  /\ fmap snd (process_lines (shift_by None 5 0) (translation (Z2Qc 5) 0)
                 initial_state [line "G91"; line "G1 X10"])
     = Ok ["G91"; "G1 X10.000"].
Proof.
  repeat split; vm_compute; reflexivity.
Qed.

(** *** Lines that are copied *)

Lemma rstrip_nl_newlines (l : string) :
  exists n, l = (rstrip_nl l ++ newlines n)%string.
Proof.
  unfold rstrip_nl. induction l as [| c tl [n IH]].
  - exists O. reflexivity.
  - cbn [rstrip_by]. destruct (rstrip_by (Ascii.eqb newline) tl) as [| d r] eqn:E.
    + cbn in IH. destruct (Ascii.eqb newline c) eqn:Ec.
      * apply Ascii.eqb_eq in Ec. subst c. exists (S n). cbn. now rewrite <- IH.
      * exists n. cbn. now rewrite <- IH.
    + exists n. cbn. cbn in IH. now rewrite <- IH.
Qed.

(** C6 - a line that is neither a mode command nor a motion command,
    blank and comment-only lines included, is appended as it is, less its
    trailing newline, and leaves the position and the mode unchanged. *)
Theorem pass_through_fidelity (cfg : config) (A : mat3) (st : state) (l : string) :
  classify l = PassThrough ->
  process_line cfg A st l = Ok (st, rstrip_nl l)
  /\ exists n, l = (rstrip_nl l ++ newlines n)%string.
Proof.
  intro H. split; [| apply rstrip_nl_newlines].
  unfold classify, clean_of in H. unfold process_line.
  destruct (split_once ";" (rstrip_nl l)) as [before comment]. cbn [fst] in H.
  destruct (is_empty (strip before)); [reflexivity|].
  destruct (re_match_G90 (strip before)); [discriminate|].
  destruct (re_match_G91 (strip before)); [discriminate|].
  destruct (re_match_motion (strip before)); [discriminate|].
  reflexivity.
Qed.
(** *** Errors *)

Lemma process_lines_app (cfg : config) (A : mat3) (st : state) (pre rest : list string) :
  process_lines cfg A st (pre ++ rest)
  = (r <- process_lines cfg A st pre ;;
     r' <- process_lines cfg A (fst r) rest ;;
     Ok (fst r', (snd r ++ snd r')%list)).
Proof.
  revert st. induction pre as [| l pre IH]; intro st; cbn [app process_lines].
  - cbn. destruct (process_lines cfg A st rest) as [[st2 outs] | e |]; reflexivity.
  - destruct (process_line cfg A st l) as [[st1 out] | e |]; cbn [bind]; [| reflexivity ..].
    rewrite IH.
    destruct (process_lines cfg A st1 pre) as [[st2 outs] | e |]; cbn [bind fst snd];
      [| reflexivity ..].
    destruct (process_lines cfg A st2 rest) as [[st3 outs'] | e |]; reflexivity.
Qed.

Lemma malformed_line_raises (cfg : config) (A : mat3) (st : state) (l : string) :
  malformed_motion l = true -> process_line cfg A st l = Raise ValueError.
Proof.
  unfold malformed_motion, classify, malformed_token, clean_of, process_line, parse_axis.
  destruct (split_once ";" (rstrip_nl l)) as [before comment]. cbn [fst].
  destruct (is_empty (strip before)); [discriminate|].
  destruct (re_match_G90 (strip before)); [discriminate|].
  destruct (re_match_G91 (strip before)); [discriminate|].
  destruct (re_match_motion (strip before)); [| discriminate]. cbn [negb].
  destruct (re_search_axis "X" (strip before)) as [tx |];
    [destruct (float tx); cbn [is_some negb orb bind]; [| reflexivity] |];
    (destruct (re_search_axis "Y" (strip before)) as [ty |];
     [destruct (float ty); cbn [is_some negb orb bind]; [discriminate | reflexivity]
     | discriminate]).
Qed.

Lemma process_line_raises_only_value_error (cfg : config) (A : mat3) (st : state)
    (l : string) (e : exn) :
  process_line cfg A st l = Raise e -> e = ValueError.
Proof.
  unfold process_line, parse_axis.
  destruct (split_once ";" (rstrip_nl l)) as [before comment].
  destruct (is_empty (strip before)); [discriminate|].
  destruct (re_match_G90 (strip before)); [discriminate|].
  destruct (re_match_G91 (strip before)); [discriminate|].
  destruct (re_match_motion (strip before)); [| discriminate]. cbn [negb].
  destruct (re_search_axis "X" (strip before)) as [tx |];
    [destruct (float tx); cbn [bind]; [| congruence] |];
    (destruct (re_search_axis "Y" (strip before)) as [ty |];
     [destruct (float ty); cbn [bind]; [| congruence] |]);
    cbn [bind];
    match goal with
    | |- context [if ?c then _ else _] => destruct c; [discriminate|]
    end;
    repeat match goal with
           | |- context [finite_coord ?x] => destruct (finite_coord x)
           end; discriminate.
Qed.

Lemma process_lines_raise_only_value_error (cfg : config) (A : mat3)
    (lines : list string) (st : state) (e : exn) :
  process_lines cfg A st lines = Raise e -> e = ValueError.
Proof.
  revert st. induction lines as [| l rest IH]; intro st; cbn [process_lines];
    [discriminate|].
  destruct (process_line cfg A st l) as [[st1 out] | e1 |] eqn:E; cbn [bind].
  - destruct (process_lines cfg A st1 rest) as [[st2 outs] | e2 |] eqn:E2; cbn [bind];
      try discriminate.
    intro H. injection H as <-. exact (IH st1 E2).
  - intro H. injection H as <-. exact (process_line_raises_only_value_error _ _ _ _ _ E).
  - discriminate.
Qed.

(** C7, as the program has it - a motion line whose first X token or
    first Y token (the leftmost match of each search) is rejected by
    [float] ends the run: the line raises from any cursor, no later line
    is processed whatever it is, nothing is printed and the exit status
    is 1.  (The lines before it are any lines the model follows.) *)
Theorem malformed_token_is_fatal (cfg : config) (pre post : list string) (l : string)
    (center : pyfloat * pyfloat) (A : mat3) :
  coord_pair (center_str cfg) = Ok center ->
  build cfg center = Ok A ->
  process_lines cfg A initial_state pre <> Unmodelled ->
  malformed_motion l = true ->
  (forall st, process_line cfg A st l = Raise ValueError)
  /\ run cfg (pre ++ l :: post) = Exited (warnings_of cfg ++ [Error ValueError]) 1
  /\ stdout_of (run cfg (pre ++ l :: post)) = []
  /\ exit_status (run cfg (pre ++ l :: post)) = Some 1%Z.
Proof.
  intros Hc Hb Hpre Hl.
  assert (Hraise : forall st, process_line cfg A st l = Raise ValueError)
    by (intro st; apply malformed_line_raises; exact Hl).
  assert (Hrun : run cfg (pre ++ l :: post)
                 = Exited (warnings_of cfg ++ [Error ValueError]) 1).
  { unfold transform_gcode. rewrite Hc, Hb, process_lines_app.
    destruct (process_lines cfg A initial_state pre) as [[st outs] | e |] eqn:E.
    - cbn [bind fst process_lines]. rewrite Hraise. reflexivity.
    - rewrite (process_lines_raise_only_value_error _ _ _ _ _ E). reflexivity.
    - elim Hpre. reflexivity. }
  rewrite Hrun. repeat split; [exact Hraise | reflexivity ..].
Qed.

Lemma split_all_nonempty (s : string) : split_all "x" s <> [].
Proof.
  destruct s as [| c tl]; cbn; [discriminate|].
  destruct (Ascii.eqb c "x"); [discriminate|].
  destruct (split_all "x" tl); discriminate.
Qed.

Lemma split_all_one (s b : string) :
  split_all "x" s = [b] -> s = b /\ contains "x" b = false.
Proof.
  revert b. induction s as [| c tl IH]; intros b H; cbn in H.
  - injection H as <-. split; reflexivity.
  - destruct (Ascii.eqb c "x") eqn:Ec.
    { injection H as _ H. elim (split_all_nonempty tl H). }
    destruct (split_all "x" tl) as [| h r] eqn:Es;
      [elim (split_all_nonempty tl Es)|].
    injection H as <- ->. destruct (IH h eq_refl) as [-> H2].
    split; [reflexivity|]. unfold contains in *.
    cbn [list_ascii_of_string existsb].
    rewrite Ascii.eqb_sym, Ec. exact H2.
Qed.

Lemma split_all_two (s a b : string) :
  split_all "x" s = [a; b] ->
  split_once "x" s = (a, Some b) /\ contains "x" b = false.
Proof.
  revert a. induction s as [| c tl IH]; intros a H; cbn in H; [discriminate|].
  cbn [split_once]. destruct (Ascii.eqb c "x") eqn:Ec.
  - injection H as <- Hb. apply split_all_one in Hb. destruct Hb as [-> H2].
    split; [reflexivity | exact H2].
  - destruct (split_all "x" tl) as [| h r] eqn:Es;
      [elim (split_all_nonempty tl Es)|].
    injection H as <- ->. destruct (IH h eq_refl) as [H1 H2].
    rewrite H1. split; [reflexivity | exact H2].
Qed.

Lemma coord_pair_well_formed (s : string) (center : pyfloat * pyfloat) :
  coord_pair s = Ok center -> center_well_formed s = true.
Proof.
  unfold coord_pair, center_well_formed.
  destruct (split_all "x" s) as [| a [| b [| c r]]] eqn:E; try discriminate.
  destruct (split_all_two s a b E) as [H1 H2]. rewrite H1, H2.
  destruct (float a); [| discriminate]. destruct (float b); [| discriminate].
  reflexivity.
Qed.

Lemma split_once_two (s a b : string) :
  split_once "x" s = (a, Some b) -> contains "x" b = false ->
  split_all "x" s = [a; b].
Proof.
  revert a. induction s as [| c tl IH]; intros a H Hb; cbn [split_once] in H;
    [discriminate|].
  cbn [split_all]. destruct (Ascii.eqb c "x") eqn:Ec.
  - injection H as <- <-. f_equal. clear IH Ec.
    induction tl as [| d tl IH]; [reflexivity|].
    unfold contains in Hb. cbn [list_ascii_of_string existsb] in Hb.
    apply orb_false_elim in Hb. destruct Hb as [Hd Hb].
    cbn [split_all]. rewrite Ascii.eqb_sym, Hd, (IH Hb). reflexivity.
  - destruct (split_once "x" tl) as [h r] eqn:Es. injection H as <- ->.
    rewrite (IH h eq_refl Hb). reflexivity.
Qed.

(** The program accepts exactly the centers that are well formed. *)
Lemma well_formed_coord_pair (s : string) :
  center_well_formed s = true -> exists center, coord_pair s = Ok center.
Proof.
  unfold center_well_formed, coord_pair.
  destruct (split_once "x" s) as [a [b |]] eqn:E; [| discriminate].
  intro H. apply andb_prop in H. destruct H as [H Hfb].
  apply andb_prop in H. destruct H as [Hx Hfa].
  apply negb_true_iff in Hx. rewrite (split_once_two s a b E Hx).
  destruct (float a) as [x |]; [| discriminate].
  destruct (float b) as [y |]; [| discriminate].
  exists (x, y). reflexivity.
Qed.

Lemma coord_pair_total (s : string) :
  (exists center, coord_pair s = Ok center) \/ coord_pair s = Raise ArgumentTypeError.
Proof.
  unfold coord_pair.
  destruct (split_all "x" s) as [| a [| b [| c r]]]; auto.
  destruct (float a); auto. destruct (float b); eauto.
Qed.

(** C10, as the program has it - the center is validated first and in
    every run.  When the center is not two texts that [float] accepts with
    a single [x] between them, the run ends with an uncaught
    [ArgumentTypeError], whatever the rotation (zero included) and whatever
    the input: no line is read, nothing is printed, and the exit status
    is 1. *)
Theorem center_validated_up_front (cfg : config) (lines : list string) :
  center_well_formed (center_str cfg) = false ->
  run cfg lines = Uncaught [] ArgumentTypeError
  /\ stdout_of (run cfg lines) = []
  /\ exit_status (run cfg lines) = Some 1%Z.
Proof.
  intro H.
  assert (Hrun : run cfg lines = Uncaught [] ArgumentTypeError).
  { unfold transform_gcode.
    destruct (coord_pair_total (center_str cfg)) as [[center Hc] | Hc].
    - apply coord_pair_well_formed in Hc. congruence.
    - rewrite Hc. reflexivity. }
  rewrite Hrun. repeat split.
Qed.
(** *** No transformation requested *)

Lemma no_transform_guard (cfg : config) :
  no_transform cfg ->
  negb (is_rotation_requested cfg) && negb (is_shift_requested cfg) = true.
Proof.
  intros (Hr & Hx & Hy). rewrite (is_rotation_requested_false cfg Hr).
  unfold is_shift_requested. rewrite Hx, Hy.
  destruct (Qc_eq_dec 0 0) as [_ | N]; [reflexivity | elim N; reflexivity].
Qed.

Lemma no_transform_line (cfg : config) (A : mat3) (st : state) (l : string) :
  no_transform cfg ->
  process_line cfg A st l
  = if malformed_motion l then Raise ValueError
    else Ok (after_mode st l, rstrip_nl l).
Proof.
  intro H. destruct (malformed_motion l) eqn:Em.
  - apply malformed_line_raises; exact Em.
  - revert Em.
    unfold after_mode, malformed_motion, classify, malformed_token, clean_of,
      process_line, parse_axis.
    rewrite (no_transform_guard cfg H).
    destruct (split_once ";" (rstrip_nl l)) as [before comment]. cbn [fst].
    destruct (is_empty (strip before)); [reflexivity|].
    destruct (re_match_G90 (strip before)); [reflexivity|].
    destruct (re_match_G91 (strip before)); [reflexivity|].
    destruct (re_match_motion (strip before)); [| reflexivity]. cbn [negb].
    destruct (re_search_axis "X" (strip before)) as [tx |];
      [destruct (float tx); cbn [is_some negb orb bind]; [| discriminate] |];
      (destruct (re_search_axis "Y" (strip before)) as [ty |];
       [destruct (float ty); cbn [is_some negb orb bind]; [| discriminate] |]);
      intros _; cbn [bind is_some orb negb]; rewrite ?orb_true_r; reflexivity.
Qed.

Lemma no_transform_lines (cfg : config) (A : mat3) (lines : list string) (st : state) :
  no_transform cfg ->
  fmap snd (process_lines cfg A st lines)
  = if existsb malformed_motion lines then Raise ValueError
    else Ok (map rstrip_nl lines).
Proof.
  intro H. revert st. induction lines as [| l rest IH]; intro st; [reflexivity|].
  cbn [process_lines existsb map]. rewrite (no_transform_line cfg A st l H).
  destruct (malformed_motion l); [reflexivity|]. cbn [bind orb].
  specialize (IH (after_mode st l)). revert IH. unfold fmap.
  destruct (process_lines cfg A (after_mode st l) rest) as [[st2 outs] | e |];
    cbn [bind snd]; destruct (existsb malformed_motion rest); intro IH;
    try discriminate; congruence.
Qed.

Lemma after_mode_cursor (st : state) (l : string) :
  pos (after_mode st l) = pos st /\ rel (after_mode st l) = mode_after (rel st) l.
Proof.
  unfold after_mode, mode_after. destruct (classify l); split; reflexivity.
Qed.

Lemma no_transform_cursor (cfg : config) (A : mat3) (lines : list string) (st : state) :
  no_transform cfg ->
  if existsb malformed_motion lines
  then process_lines cfg A st lines = Raise ValueError
  else exists st', process_lines cfg A st lines = Ok (st', map rstrip_nl lines)
                   /\ pos st' = pos st /\ rel st' = last_mode (rel st) lines.
Proof.
  intro H. revert st. induction lines as [| l rest IH]; intro st.
  - cbn [existsb]. exists st. repeat split.
  - cbn [existsb process_lines map]. rewrite (no_transform_line cfg A st l H).
    destruct (malformed_motion l); [reflexivity|]. cbn [orb bind].
    specialize (IH (after_mode st l)).
    destruct (after_mode_cursor st l) as [Hp Hr].
    destruct (existsb malformed_motion rest).
    + rewrite IH. reflexivity.
    + destruct IH as (st' & E & Hp' & Hr'). exists st'. rewrite E. cbn [bind].
      split; [reflexivity|]. split; [congruence|].
      unfold last_mode in *. cbn [fold_left]. congruence.
Qed.

(** C5, as the program has it - without a rotation and without a shift
    the run still warns on standard error and goes on to the end; every
    line is classified and the first X and the first Y token of a motion
    line are still given to [float], so that one it rejects still ends the
    run; but the lines, motion lines included, are printed as they are,
    less their trailing newline, and the loop leaves the position of the
    cursor where it was, its mode being that of the last mode command. *)
Theorem no_transform_copies (cfg : config) (center : pyfloat * pyfloat)
    (lines : list string) :
  no_transform cfg ->
  coord_pair (center_str cfg) = Ok center ->
  run cfg lines
  = (if existsb malformed_motion lines
     then Exited [Warning no_transform_warning; Error ValueError] 1
     else Printed [Warning no_transform_warning]
                  (header float_repr cfg ++ map rstrip_nl lines))
  /\ forall A st,
       if existsb malformed_motion lines
       then process_lines cfg A st lines = Raise ValueError
       else exists st', process_lines cfg A st lines = Ok (st', map rstrip_nl lines)
                        /\ pos st' = pos st /\ rel st' = last_mode (rel st) lines.
Proof.
  intros H Hc. split; [| intros A st; apply no_transform_cursor; exact H].
  unfold transform_gcode, warnings_of.
  rewrite Hc, (no_transform_guard cfg H).
  destruct H as (Hr & Hx & Hy).
  rewrite (build_transform_no_rotation cfg center Hr).
  pose proof (no_transform_lines cfg
                (translation (shift_x cfg) (shift_y cfg) @ identity3 @ identity3 @ identity3)
                lines initial_state (conj Hr (conj Hx Hy))) as HL.
  revert HL. unfold fmap.
  destruct (process_lines cfg _ initial_state lines) as [[st outs] | e |];
    cbn [bind snd app]; destruct (existsb malformed_motion lines); intro HL;
    try discriminate; injection HL as ->; reflexivity.
Qed.

(** *** Relative mode under a pure translation *)

Lemma relative_tokens_translation (cfg : config) (st : state) (cx cy : option Qc) :
  truthy (rel st) = true ->
  motion_tokens cfg
    (translation (shift_x cfg) (shift_y cfg) @ identity3 @ identity3 @ identity3)
    st cx cy
  = ((fst (pos st) + or_else cx 0 + shift_x cfg,
      snd (pos st) + or_else cy 0 + shift_y cfg),
     fst (input_delta_tokens (precision cfg) cx cy),
     snd (input_delta_tokens (precision cfg) cx cy)).
Proof.
  intro H. unfold motion_tokens. destruct (pos st) as [px py]. rewrite H.
  repeat rewrite mat_mul_identity_r.
  unfold apply, mat_vec, translation, dot, input_delta_tokens. cbn [fst snd].
  split_tuples.
  - ring.
  - ring.
  - destruct cx as [d |]; cbn [option_map or_else]; [| reflexivity].
    do 3 f_equal. ring.
  - destruct cy as [d |]; cbn [option_map or_else]; [| reflexivity].
    do 3 f_equal. ring.
Qed.

Lemma relative_line_translation (cfg : config) (st : state) (l : string) :
  rotate_deg cfg = 0 ->
  rel st = Some true ->
  classify l = Motion ->
  let A := translation (shift_x cfg) (shift_y cfg) @ identity3 @ identity3 @ identity3 in
  fmap snd (process_line cfg A st l) = input_delta_line cfg l
  /\ forall st' out, process_line cfg A st l = Ok (st', out) -> rel st' = Some true.
Proof.
  intros Hr Hrel Hk A. revert Hk.
  unfold classify, input_delta_line, comment_of, clean_of, process_line.
  rewrite (is_rotation_requested_false cfg Hr).
  destruct (split_once ";" (rstrip_nl l)) as [before comment]. cbn [fst snd].
  destruct (is_empty (strip before)); [discriminate|].
  destruct (re_match_G90 (strip before)); [discriminate|].
  destruct (re_match_G91 (strip before)); [discriminate|].
  destruct (re_match_motion (strip before)); [| discriminate]. intros _.
  cbn [negb andb].
  destruct (parse_axis "X" (strip before)) as [x | e |]; cbn [bind fmap];
    [| split; [reflexivity | discriminate] ..].
  destruct (parse_axis "Y" (strip before)) as [y | e |]; cbn [bind fmap];
    [| split; [reflexivity | discriminate] ..].
  destruct (negb (is_some x || is_some y) || negb (is_shift_requested cfg)).
  - split; [reflexivity|]. intros st' out E. injection E as <- _. exact Hrel.
  - destruct (finite_coord x) as [cx |]; [| split; [reflexivity | discriminate]].
    destruct (finite_coord y) as [cy |]; [| split; [reflexivity | discriminate]].
    unfold transform_motion, A.
    rewrite relative_tokens_translation by (rewrite Hrel; reflexivity).
    unfold input_delta_tokens. cbn [fst snd bind]. split; [reflexivity|].
    intros st' out E. injection E as <- _. exact Hrel.
Qed.

(** C4 - in relative mode a pure translation leaves the deltas as they
    are.  For a translation by any shift and motion lines processed from
    any cursor in relative mode, the lines appended are those obtained
    from the input deltas themselves, formatted: they depend neither on
    the shift nor on the position of the cursor.  (A line without X and
    Y, and every line when the shift is zero, is copied.) *)
Theorem relative_deltas_invariant (cfg : config) (center : pyfloat * pyfloat)
    (A : mat3) (st : state) (lines : list string) :
  rotate_deg cfg = 0 ->
  build cfg center = Ok A ->
  rel st = Some true ->
  Forall (fun l => classify l = Motion) lines ->
  fmap snd (process_lines cfg A st lines) = traverse (input_delta_line cfg) lines.
Proof.
  intros Hr Hb Hrel Hall.
  rewrite (build_transform_no_rotation cfg center Hr) in Hb. injection Hb as <-.
  revert st Hrel. induction Hall as [| l rest Hl _ IH]; intros st Hrel; [reflexivity|].
  cbn [process_lines traverse].
  destruct (relative_line_translation cfg st l Hr Hrel Hl) as [H1 H2].
  rewrite <- H1.
  destruct (process_line cfg _ st l) as [[st1 out] | e |]; cbn [bind fmap snd];
    [| reflexivity ..].
  rewrite <- (IH st1 (H2 st1 out eq_refl)).
  destruct (process_lines cfg _ st1 rest) as [[st2 outs] | e |]; reflexivity.
Qed.

End Properties.

(** *** The format of a coordinate *)

Lemma round_half_even_nearest (q : Q) :
  (Qabs (inject_Z (round_half_even q) - q) <= 1 # 2)%Q.
Proof.
  unfold round_half_even.
  pose proof (Qfloor_le q) as Hlo. pose proof (Qlt_floor q) as Hhi.
  rewrite inject_Z_plus in Hhi. change (inject_Z 1) with 1%Q in Hhi.
  apply Qabs_Qle_condition.
  destruct (Qcompare (q - inject_Z (Qfloor q)) (1 # 2)) eqn:E.
  - apply Qeq_alt in E. destruct (Z.even (Qfloor q)).
    + lra.
    + rewrite inject_Z_plus. change (inject_Z 1) with 1%Q. lra.
  - apply Qlt_alt in E. lra.
  - apply Qgt_alt in E. rewrite inject_Z_plus. change (inject_Z 1) with 1%Q. lra.
Qed.

Lemma round_half_even_tie (q : Q) :
  (Qabs (inject_Z (round_half_even q) - q) == 1 # 2)%Q ->
  Z.even (round_half_even q) = true.
Proof.
  unfold round_half_even.
  pose proof (Qfloor_le q) as Hlo. pose proof (Qlt_floor q) as Hhi.
  rewrite inject_Z_plus in Hhi. change (inject_Z 1) with 1%Q in Hhi.
  destruct (Qcompare (q - inject_Z (Qfloor q)) (1 # 2)) eqn:E.
  - destruct (Z.even (Qfloor q)) eqn:Ev; [intros _; exact Ev|].
    intros _. rewrite Z.even_add, Ev. reflexivity.
  - apply Qlt_alt in E. intro H. exfalso.
    rewrite Qabs_neg in H by lra. lra.
  - apply Qgt_alt in E. rewrite inject_Z_plus. change (inject_Z 1) with 1%Q.
    intro H. exfalso. rewrite Qabs_pos in H by lra. lra.
Qed.

Lemma round_half_even_nonneg (q : Q) : (0 <= q)%Q -> (0 <= round_half_even q)%Z.
Proof.
  intro H. unfold round_half_even.
  assert (0 <= Qfloor q)%Z.
  { change 0%Z with (Qfloor 0). apply Qfloor_resp_le; exact H. }
  destruct (Qcompare _ _); [destruct (Z.even _) |..]; lia.
Qed.

Lemma all_digits_cons (c : ascii) (s : string) :
  all_digits (String c s) = is_digit c && all_digits s.
Proof. reflexivity. Qed.

Lemma all_digits_app (s t : string) :
  all_digits (s ++ t) = all_digits s && all_digits t.
Proof.
  induction s as [| c s IH]; [reflexivity|].
  cbn [append]. rewrite !all_digits_cons, IH. apply andb_assoc.
Qed.

Lemma digits_value_app (s t : string) (a : Z) :
  digits_value a (s ++ t) = digits_value (digits_value a s) t.
Proof.
  revert a. induction s as [| c s IH]; intro a; [reflexivity|].
  cbn [append digits_value]. apply IH.
Qed.

Lemma all_digits_uint (d : Decimal.uint) :
  all_digits (NilEmpty.string_of_uint d) = true.
Proof.
  induction d; cbn [NilEmpty.string_of_uint]; [reflexivity | ..];
    rewrite all_digits_cons, IHd; reflexivity.
Qed.

Lemma digits_value_uint_acc (d : Decimal.uint) (acc : positive) :
  digits_value (Zpos acc) (NilEmpty.string_of_uint d) = Zpos (Pos.of_uint_acc d acc).
Proof.
  revert acc. induction d; intro acc;
    cbn [NilEmpty.string_of_uint digits_value Pos.of_uint_acc]; [reflexivity | ..].
  all: rewrite <- IHd; f_equal.
  all: match goal with
       | |- context [digit_value ?c] =>
           let v := eval vm_compute in (digit_value c) in
           change (digit_value c) with v
       end; lia.
Qed.

Lemma digits_value_uint (d : Decimal.uint) :
  digits_value 0 (NilEmpty.string_of_uint d) = Z.of_N (Pos.of_uint d).
Proof.
  induction d; cbn [NilEmpty.string_of_uint digits_value Pos.of_uint];
    [reflexivity | exact IHd | ..].
  all: cbn [Z.of_N]; rewrite <- digits_value_uint_acc; reflexivity.
Qed.

Lemma decimal_spec (k : Z) :
  (0 <= k)%Z ->
  decimal k <> "" /\ all_digits (decimal k) = true /\ digits_value 0 (decimal k) = k.
Proof.
  intro Hk. unfold decimal, NilZero.string_of_uint.
  pose proof (digits_value_uint (N.to_uint (Z.to_N k))) as Hv.
  pose proof (all_digits_uint (N.to_uint (Z.to_N k))) as Hd.
  change (Pos.of_uint (N.to_uint (Z.to_N k))) with (N.of_uint (N.to_uint (Z.to_N k))) in Hv.
  rewrite DecimalN.Unsigned.of_to, Z2N.id in Hv by exact Hk.
  destruct (N.to_uint (Z.to_N k)) eqn:E;
    [cbn in Hv; subst k; repeat split; discriminate | ..];
    (repeat split; [discriminate | exact Hd | exact Hv]).
Qed.

Lemma digit_char_spec (n : Z) :
  is_digit (digit_char n) = true /\ digit_value (digit_char n) = (n mod 10)%Z.
Proof.
  pose proof (Z.mod_pos_bound n 10 ltac:(lia)) as Hb.
  unfold is_digit, in_range, digit_value, digit_char, code.
  rewrite N_ascii_embedding by lia. split; [| lia].
  apply andb_true_intro. split; apply N.leb_le; lia.
Qed.

Lemma fixed_digits_length (p : nat) (n : Z) (acc : string) :
  String.length (fixed_digits p n acc) = (p + String.length acc)%nat.
Proof.
  revert n acc. induction p as [| p IH]; intros n acc; [reflexivity|].
  cbn [fixed_digits]. rewrite IH. cbn [String.length]. lia.
Qed.

Lemma fixed_digits_all_digits (p : nat) (n : Z) (acc : string) :
  all_digits acc = true -> all_digits (fixed_digits p n acc) = true.
Proof.
  revert n acc. induction p as [| p IH]; intros n acc H; [exact H|].
  cbn [fixed_digits]. apply IH. rewrite all_digits_cons, H.
  rewrite (proj1 (digit_char_spec n)). reflexivity.
Qed.

Lemma fixed_digits_value (p : nat) (n a : Z) (acc : string) :
  digits_value a (fixed_digits p n acc)
  = digits_value (a * 10 ^ Z.of_nat p + n mod 10 ^ Z.of_nat p) acc.
Proof.
  revert n a acc. induction p as [| p IH]; intros n a acc.
  - cbn [fixed_digits Z.of_nat]. f_equal. rewrite Z.pow_0_r, Z.mod_1_r. lia.
  - cbn [fixed_digits]. rewrite IH. cbn [digits_value].
    rewrite (proj2 (digit_char_spec n)). f_equal.
    rewrite Nat2Z.inj_succ, Z.pow_succ_r by lia.
    rewrite (Z.rem_mul_r n 10 (10 ^ Z.of_nat p)) by lia. lia.
Qed.

(** C9, as the program has it - the text of a formatted coordinate of
    finite value: a sign, the integer digits, and a point followed by exactly [precision]
    digits when [precision] is positive; no point and no further digit
    when it is zero.  The digits
    denote the magnitude rounded to the nearest unit of the last place, a
    tie going to the even one. *)
Theorem format_coord_shape (precision : nat) (x : Qc) :
  exists int_part frac_part : string,
    format_coord precision x
    = sign_text x ++ int_part
      ++ match precision with O => "" | S _ => "." ++ frac_part end
    /\ int_part <> ""
    /\ all_digits int_part = true
    /\ String.length frac_part = precision
    /\ all_digits frac_part = true
    /\ let n := digits_value 0 (int_part ++ frac_part) in
       let y := (Qabs x * inject_Z (10 ^ Z.of_nat precision))%Q in
       (Qabs (inject_Z n - y) <= 1 # 2)%Q
       /\ ((Qabs (inject_Z n - y) == 1 # 2)%Q -> Z.even n = true).
Proof.
  pose (n := scaled_magnitude precision x).
  assert (Hs : (0 < scale precision)%Z) by (unfold scale; lia).
  assert (Hn : (0 <= n)%Z).
  { apply round_half_even_nonneg. apply Qmult_le_0_compat.
    - apply Qabs_nonneg.
    - change 0%Q with (inject_Z 0). rewrite <- Zle_Qle. lia. }
  assert (Hq : (0 <= n / scale precision)%Z) by (apply Z.div_pos; lia).
  destruct (decimal_spec (n / scale precision) Hq) as (H1 & H2 & H3).
  exists (decimal (n / scale precision)),
         (fixed_digits precision (n mod scale precision) "").
  assert (Hv : digits_value 0 (decimal (n / scale precision)
                               ++ fixed_digits precision (n mod scale precision) "") = n).
  { rewrite digits_value_app, H3, fixed_digits_value. cbn [digits_value].
    fold (scale precision). rewrite Z.mod_mod by lia.
    rewrite (Z.div_mod n (scale precision)) at 3 by lia. lia. }
  refine (conj _ (conj H1 (conj H2 (conj _ (conj _ (conj _ _)))))).
  - unfold format_coord, fraction_text. fold n. destruct precision; reflexivity.
  - rewrite fixed_digits_length. cbn. lia.
  - apply fixed_digits_all_digits. reflexivity.
  - rewrite Hv. apply round_half_even_nearest.
  - rewrite Hv. apply round_half_even_tie.
Qed.

(** C9, as stated, fails for a precision of zero: 10 is printed as [10],
    without a decimal point. *)
Lemma format_coord_zero_precision_has_no_point :
  format_coord 0 (Z2Qc 10) = "10"
  /\ contains "." (format_coord 0 (Z2Qc 10)) = false.
Proof. split; vm_compute; reflexivity. Qed.

(** ** Concrete instances *)

(** C5, as stated, fails on a motion line: without a rotation and without
    a shift the line G1 X10 is copied, where lines 127-189 would have
    rebuilt it as G1 X10.000. *)
Lemma no_transform_motion_line_is_copied :
  let cfg := shift_by None 0 0 in
  let A := translation 0 0 @ identity3 @ identity3 @ identity3 in
  Bhaskara.run cfg [line "G1 X10"]
  = Printed [Warning no_transform_warning] (header Bhaskara.repr cfg ++ ["G1 X10"])
  /\ snd (transform_motion cfg A initial_state "G1 X10" None (Some (Z2Qc 10)) None)
     = "G1 X10.000"
  /\ fmap snd (process_line cfg A initial_state (line "G1 X10"))
     <> Ok (snd (transform_motion cfg A initial_state "G1 X10" None (Some (Z2Qc 10)) None)).
Proof.
  intros cfg A. split; [| split].
  - vm_compute. reflexivity.
  - vm_compute. reflexivity.
  - vm_compute. discriminate.
Qed.

(** C7, as stated, fails on a token the search does not reach and on a
    token [float] accepts without its being a number: the line G1 X1 Xabc
    carries the token Xabc, yet only X1 is parsed and the line is printed
    as G1 X6.000 under a shift of 5; and G1 Xnan is copied by a run
    without a transformation. *)
Lemma unparsable_token_is_not_always_fatal :
  let shifted := shift_by None 5 0 in
  let copied := shift_by None 0 0 in
  carries_unparsable_token (line "G1 X1 Xabc") = true
  /\ Bhaskara.run shifted [line "G1 X1 Xabc"]
     = Printed [] (header Bhaskara.repr shifted ++ ["G1 X6.000"])
  /\ carries_unparsable_token (line "G1 Xnan") = true
  /\ Bhaskara.run copied [line "G1 Xnan"]
     = Printed [Warning no_transform_warning] (header Bhaskara.repr copied ++ ["G1 Xnan"]).
Proof.
  intros shifted copied. repeat split; vm_compute; reflexivity.
Qed.

(** C10, as stated, fails on a center that [float] accepts without its
    being two real numbers: with the center infx1 (or nanxnan) the run does
    not end at the center; without a rotation it goes on to the end and
    exits with status 0. *)
Lemma non_real_center_is_accepted :
  let cfg c := {| input_path := None; rotate_deg := 0; shift_x := Z2Qc 5; shift_y := 0;
                  center_str := c; precision := 3 |} in
  two_real_numbers "infx1" = false
  /\ Bhaskara.run (cfg "infx1") [line "G1 X1"]
     = Printed [] (header Bhaskara.repr (cfg "infx1") ++ ["G1 X6.000"])
  /\ exit_status (Bhaskara.run (cfg "infx1") [line "G1 X1"]) = Some 0%Z
  /\ two_real_numbers "nanxnan" = false
  /\ exit_status (Bhaskara.run (cfg "nanxnan") [line "G1 X1"]) = Some 0%Z.
Proof.
  intro cfg. repeat split; vm_compute; reflexivity.
Qed.

(** An exact tie is rounded to the even digit: 0.125 with two digits is
    0.12, and 2.5 without digits is 2. *)
Lemma format_coord_tie_goes_to_even :
  format_coord 2 (Q2Qc (1 # 8)) = "0.12" /\ format_coord 0 (Q2Qc (5 # 2)) = "2".
Proof. split; vm_compute; reflexivity. Qed.

(** The scenario of C2 with the stand-in trigonometry, which is exact at a
    right angle. *)
Lemma rotation_sign_and_scenario_witness :
  (exists A, build_transform Bhaskara.radians Bhaskara.cos Bhaskara.sin
               (quarter_turn None) (Finite 0, Finite 0) = Ok A
             /\ apply A (Z2Qc 10, 0) = (0, - Z2Qc 10))
  /\ Bhaskara.run (quarter_turn None) [line "G90"; line "G1 X10 Y0"; line "G1 X10 Y10"]
     = Printed [] (header Bhaskara.repr (quarter_turn None)
                   ++ ["G90"; "G1 X0.000 Y-10.000"; "G1 X10.000 Y-10.000"]).
Proof.
  apply (rotation_sign_and_scenario Bhaskara.radians Bhaskara.cos Bhaskara.sin
           Bhaskara.repr None).
  - apply Qc_is_canon. vm_compute. reflexivity.
  - apply Qc_is_canon. vm_compute. reflexivity.
Defined.

(** The example of C4: a translation by (5, -3), the deltas X10 then Y4. *)
Lemma relative_deltas_invariant_witness :
  let cfg := shift_by None 5 (-3) in
  fmap snd (process_lines cfg
              (translation (Z2Qc 5) (Z2Qc (-3)) @ identity3 @ identity3 @ identity3)
              (set_rel initial_state true) [line "G1 X10"; line "G1 Y4"])
  = traverse (input_delta_line cfg) [line "G1 X10"; line "G1 Y4"].
Proof.
  intro cfg.
  apply (relative_deltas_invariant Bhaskara.radians Bhaskara.cos Bhaskara.sin cfg
           (Finite (Z2Qc 125), Finite (Z2Qc 100))).
  - reflexivity.
  - reflexivity.
  - reflexivity.
  - repeat constructor.
Defined.

(** A run without a transformation. *)
Lemma no_transform_copies_witness :
  let cfg := shift_by (Some "part.gcode") 0 0 in
  let lines := [line "G91"; line "G1  X10 Y5 ; move"; line "M84"] in
  Bhaskara.run cfg lines
  = (if existsb malformed_motion lines
     then Exited [Warning no_transform_warning; Error ValueError] 1
     else Printed [Warning no_transform_warning]
                  (header Bhaskara.repr cfg ++ map rstrip_nl lines))
  /\ forall A st,
       if existsb malformed_motion lines
       then process_lines cfg A st lines = Raise ValueError
       else exists st', process_lines cfg A st lines = Ok (st', map rstrip_nl lines)
                        /\ pos st' = pos st /\ rel st' = last_mode (rel st) lines.
Proof.
  intros cfg lines.
  eapply (no_transform_copies Bhaskara.radians Bhaskara.cos Bhaskara.sin Bhaskara.repr cfg).
  - repeat split; reflexivity.
  - reflexivity.
Defined.

(** A line that is copied with its leading blanks and its comment. *)
Lemma pass_through_fidelity_witness :
  let l := line "  M104 S200 ; heat" in
  process_line (shift_by None 5 0) (translation (Z2Qc 5) 0) initial_state l
  = Ok (initial_state, rstrip_nl l)
  /\ exists n, l = (rstrip_nl l ++ newlines n)%string.
Proof.
  intro l. apply pass_through_fidelity. reflexivity.
Defined.

(** A run that ends on the token Xabc of its second line. *)
Lemma malformed_token_is_fatal_witness :
  let cfg := shift_by None 1 0 in
  let A := translation (Z2Qc 1) 0 @ identity3 @ identity3 @ identity3 in
  let lines := ([line "G90"] ++ line "G1 Xabc Y2" :: [line "G1 X1"])%list in
  (forall st, process_line cfg A st (line "G1 Xabc Y2") = Raise ValueError)
  /\ Bhaskara.run cfg lines = Exited (warnings_of cfg ++ [Error ValueError]) 1
  /\ stdout_of (Bhaskara.run cfg lines) = []
  /\ exit_status (Bhaskara.run cfg lines) = Some 1%Z.
Proof.
  intros cfg A lines.
  eapply (malformed_token_is_fatal Bhaskara.radians Bhaskara.cos Bhaskara.sin Bhaskara.repr
            cfg [line "G90"] [line "G1 X1"] (line "G1 Xabc Y2")).
  - reflexivity.
  - reflexivity.
  - vm_compute. discriminate.
  - reflexivity.
Defined.

(** A center with a comma, without a rotation. *)
Lemma center_validated_up_front_witness :
  let cfg := {| input_path := None; rotate_deg := 0; shift_x := Z2Qc 2; shift_y := 0;
                center_str := "125,100"; precision := 3 |} in
  Bhaskara.run cfg [line "G1 X1"] = Uncaught [] ArgumentTypeError
  /\ stdout_of (Bhaskara.run cfg [line "G1 X1"]) = []
  /\ exit_status (Bhaskara.run cfg [line "G1 X1"]) = Some 1%Z.
Proof.
  intro cfg.
  apply (center_validated_up_front Bhaskara.radians Bhaskara.cos Bhaskara.sin Bhaskara.repr).
  reflexivity.
Defined.

(** ** Further properties of the loop *)

(** The body of the loop, by the kind of the line. *)
Lemma process_line_by_kind (cfg : config) (A : mat3) (st : state) (l : string) :
  process_line cfg A st l
  = match classify l with
    | PassThrough => Ok (st, rstrip_nl l)
    | ModeSwitch b => Ok (set_rel st b, rstrip_nl l)
    | Motion =>
        x <- parse_axis "X" (clean_of l) ;;
        y <- parse_axis "Y" (clean_of l) ;;
        if negb (is_some x || is_some y) || negb (transform_requested cfg)
        then Ok (st, rstrip_nl l)
        else match finite_coord x, finite_coord y with
             | Some cx, Some cy =>
                 Ok (transform_motion cfg A st (clean_of l) (comment_of l) cx cy)
             | _, _ => Unmodelled
             end
    end.
Proof.
  unfold process_line, classify, clean_of, comment_of, transform_requested.
  rewrite negb_orb.
  destruct (split_once ";" (rstrip_nl l)) as [before comment]. cbn [fst snd].
  destruct (is_empty (strip before)); [reflexivity|].
  destruct (re_match_G90 (strip before)); [reflexivity|].
  destruct (re_match_G91 (strip before)); [reflexivity|].
  destruct (re_match_motion (strip before)); reflexivity.
Qed.

Lemma process_line_mode (cfg : config) (A : mat3) (st st1 : state) (l out : string) :
  process_line cfg A st l = Ok (st1, out) -> rel st1 = mode_after (rel st) l.
Proof.
  rewrite process_line_by_kind. unfold mode_after.
  destruct (classify l) as [b | |].
  - intro H. injection H as <- _. reflexivity.
  - destruct (parse_axis "X" (clean_of l)) as [x | e |]; cbn [bind]; try discriminate.
    destruct (parse_axis "Y" (clean_of l)) as [y | e |]; cbn [bind]; try discriminate.
    destruct (negb (is_some x || is_some y) || negb (transform_requested cfg)).
    + intro H. injection H as <- _. reflexivity.
    + destruct (finite_coord x) as [cx |]; [| discriminate].
      destruct (finite_coord y) as [cy |]; [| discriminate].
      unfold transform_motion.
      destruct (motion_tokens cfg A st cx cy) as [[p tx] ty].
      intro H. injection H as <- _. reflexivity.
  - intro H. injection H as <- _. reflexivity.
Qed.

(** X2 - the mode the cursor holds after a run of lines is the one of the
    last mode command among them, and the mode it started with when there
    is none: no other line changes it. *)
Theorem mode_is_last_command (cfg : config) (A : mat3) (lines : list string)
    (st st' : state) (outs : list string) :
  process_lines cfg A st lines = Ok (st', outs) ->
  rel st' = last_mode (rel st) lines.
Proof.
  revert st st' outs. induction lines as [| l rest IH]; intros st st' outs H.
  - injection H as <- _. reflexivity.
  - cbn [process_lines] in H. unfold last_mode. cbn [fold_left].
    destruct (process_line cfg A st l) as [[st1 out] | e |] eqn:E; cbn [bind] in H;
      try discriminate.
    rewrite <- (process_line_mode cfg A st st1 l out E).
    destruct (process_lines cfg A st1 rest) as [[st2 outs2] | e |] eqn:E2;
      cbn [bind] in H; try discriminate.
    injection H as <- _. exact (IH st1 st2 outs2 E2).
Qed.

(** The loop appends one line for each line of the input, in order, and a
    line that is not a motion command as it was. *)
Lemma process_lines_in_order (cfg : config) (A : mat3) (lines : list string)
    (st st' : state) (outs : list string) :
  process_lines cfg A st lines = Ok (st', outs) ->
  Forall2 (fun l out => classify l <> Motion -> out = rstrip_nl l) lines outs.
Proof.
  revert st st' outs. induction lines as [| l rest IH]; intros st st' outs H.
  - injection H as _ <-. constructor.
  - cbn [process_lines] in H.
    destruct (process_line cfg A st l) as [[st1 out] | e |] eqn:E; cbn [bind] in H;
      try discriminate.
    destruct (process_lines cfg A st1 rest) as [[st2 outs2] | e |] eqn:E2;
      cbn [bind] in H; try discriminate.
    injection H as _ <-. constructor; [| exact (IH st1 st2 outs2 E2)].
    intro Hk. rewrite process_line_by_kind in E.
    destruct (classify l) as [b | |]; [| elim Hk; reflexivity |];
      injection E as _ <-; reflexivity.
Qed.

(** *** The cursor and the output *)

(** Two cursors at the same position whose modes are both relative or both
    not. *)
Lemma motion_tokens_same_cursor (cfg : config) (A : mat3) (st st' : state)
    (cx cy : option Qc) :
  pos st = pos st' -> truthy (rel st) = truthy (rel st') ->
  motion_tokens cfg A st cx cy = motion_tokens cfg A st' cx cy.
Proof.
  intros Hp Hr. unfold motion_tokens. rewrite Hp, Hr. reflexivity.
Qed.

Lemma process_line_same_cursor (cfg : config) (A : mat3) (st st' : state) (l : string) :
  pos st = pos st' -> truthy (rel st) = truthy (rel st') ->
  match process_line cfg A st l, process_line cfg A st' l with
  | Ok (s1, o1), Ok (s2, o2) =>
      o1 = o2 /\ pos s1 = pos s2 /\ truthy (rel s1) = truthy (rel s2)
  | Raise e1, Raise e2 => e1 = e2
  | Unmodelled, Unmodelled => True
  | _, _ => False
  end.
Proof.
  intros Hp Hr. rewrite !process_line_by_kind.
  destruct (classify l) as [b | |].
  - cbn. auto.
  - destruct (parse_axis "X" (clean_of l)) as [x | e |]; cbn [bind]; [| reflexivity | exact I].
    destruct (parse_axis "Y" (clean_of l)) as [y | e |]; cbn [bind]; [| reflexivity | exact I].
    destruct (negb (is_some x || is_some y) || negb (transform_requested cfg)); [auto|].
    destruct (finite_coord x) as [cx |]; [| exact I].
    destruct (finite_coord y) as [cy |]; [| exact I].
    unfold transform_motion.
    rewrite (motion_tokens_same_cursor cfg A st st' cx cy Hp Hr).
    destruct (motion_tokens cfg A st' cx cy) as [[p tx] ty]. cbn [pos rel]. auto.
  - auto.
Qed.

Lemma process_lines_same_cursor (cfg : config) (A : mat3) (lines : list string)
    (st st' : state) :
  pos st = pos st' -> truthy (rel st) = truthy (rel st') ->
  fmap snd (process_lines cfg A st lines) = fmap snd (process_lines cfg A st' lines).
Proof.
  revert st st'. induction lines as [| l rest IH]; intros st st' Hp Hr; [reflexivity|].
  cbn [process_lines].
  pose proof (process_line_same_cursor cfg A st st' l Hp Hr) as H.
  destruct (process_line cfg A st l) as [[s1 o1] | e1 |],
           (process_line cfg A st' l) as [[s2 o2] | e2 |]; try contradiction.
  - destruct H as (-> & Hp1 & Hr1). cbn [bind]. specialize (IH s1 s2 Hp1 Hr1).
    unfold fmap in *.
    destruct (process_lines cfg A s1 rest) as [[t1 r1] | e1 |],
             (process_lines cfg A s2 rest) as [[t2 r2] | e2 |];
      cbn [bind snd] in *; try discriminate; congruence.
  - subst e2. reflexivity.
  - reflexivity.
Qed.

(** X3 - a mode that was never set behaves as the absolute mode: from the
    same position, a cursor whose mode is unset and a cursor in absolute
    mode give the same lines (or the same error) for every input. *)
Theorem unset_mode_is_absolute (cfg : config) (A : mat3) (p : Qc * Qc)
    (lines : list string) :
  fmap snd (process_lines cfg A {| pos := p; rel := None |} lines)
  = fmap snd (process_lines cfg A {| pos := p; rel := Some false |} lines).
Proof.
  apply process_lines_same_cursor; reflexivity.
Qed.

(** *** Motion lines *)

Lemma parse_axis_none (p : ascii) (s : string) :
  re_search_axis p s = None -> parse_axis p s = Ok None.
Proof. intro H. unfold parse_axis. rewrite H. reflexivity. Qed.

(** X6 - a motion command without an X and without a Y token (a move in Z,
    a feed rate) is copied as it is, less its newline, and does not move
    the cursor, whatever the transformation. *)
Theorem motion_without_xy_is_copied (cfg : config) (A : mat3) (st : state) (l : string) :
  classify l = Motion ->
  has_xy_token (clean_of l) = false ->
  process_line cfg A st l = Ok (st, rstrip_nl l).
Proof.
  intros Hk Ht. rewrite process_line_by_kind, Hk.
  unfold has_xy_token in Ht. apply orb_false_elim in Ht. destruct Ht as [Hx Hy].
  destruct (re_search_axis "X" (clean_of l)) eqn:Ex; [discriminate|].
  destruct (re_search_axis "Y" (clean_of l)) eqn:Ey; [discriminate|].
  rewrite (parse_axis_none "X" _ Ex), (parse_axis_none "Y" _ Ey). reflexivity.
Qed.

(** X7 - in absolute mode (or with the mode unset) a motion line that gives
    both X and Y is printed with the two coordinates of the transform of
    (X, Y), and the cursor is put there: the position the cursor had does
    not enter. *)
Theorem absolute_full_line (cfg : config) (A : mat3) (st : state) (l : string)
    (x y : Qc) :
  classify l = Motion ->
  parse_axis "X" (clean_of l) = Ok (Some (Finite x)) ->
  parse_axis "Y" (clean_of l) = Ok (Some (Finite y)) ->
  transform_requested cfg = true ->
  truthy (rel st) = false ->
  process_line cfg A st l
  = Ok ({| pos := apply A (x, y); rel := rel st |},
        rebuild (clean_of l) (comment_of l)
          (Some ("X" ++ format_coord (precision cfg) (fst (apply A (x, y)))))
          (Some ("Y" ++ format_coord (precision cfg) (snd (apply A (x, y)))))).
Proof.
  intros Hk Hx Hy Ht Hr. rewrite process_line_by_kind, Hk, Hx, Hy, Ht.
  cbn [bind is_some orb negb finite_coord]. unfold transform_motion, motion_tokens.
  destruct (pos st) as [px py]. rewrite Hr. cbn [or_else option_map].
  destruct (apply A (px, py)) as [u v]. destruct (apply A (x, y)) as [u' v'].
  reflexivity.
Qed.

(** *** Comments *)

Lemma rstrip_nl_before_semicolon (s c : string) :
  rstrip_nl (s ++ String ";" c) = (s ++ String ";" (rstrip_nl c))%string.
Proof.
  unfold rstrip_nl. induction s as [| a s IH].
  - cbn [append rstrip_by].
    destruct (rstrip_by (Ascii.eqb newline) c); reflexivity.
  - cbn [append rstrip_by]. rewrite IH. destruct s; reflexivity.
Qed.

Lemma split_once_at (sep : ascii) (s c : string) :
  contains sep s = false ->
  split_once sep (s ++ String sep c) = (s, Some c).
Proof.
  unfold contains. induction s as [| a s IH]; intro H.
  - cbn [append split_once]. rewrite Ascii.eqb_refl. reflexivity.
  - cbn [list_ascii_of_string existsb] in H. apply orb_false_elim in H.
    destruct H as [Ha Hs]. cbn [append split_once].
    rewrite Ascii.eqb_sym, Ha, (IH Hs). reflexivity.
Qed.

Lemma clean_of_commented (s c : string) :
  contains ";" s = false ->
  clean_of (s ++ String ";" c) = strip s
  /\ comment_of (s ++ String ";" c) = Some (rstrip_nl c).
Proof.
  intro H. unfold clean_of, comment_of.
  rewrite rstrip_nl_before_semicolon, (split_once_at ";" s _ H). split; reflexivity.
Qed.

(** X8 - what follows the first semicolon of a line is a comment and is
    never searched for a command or a coordinate: the text that is
    classified and searched is what stands before it, stripped, and the
    cursor after the line is the same whatever the comment says. *)
Theorem comment_is_never_parsed (cfg : config) (A : mat3) (st : state) (s c : string) :
  contains ";" s = false ->
  clean_of (s ++ String ";" c) = strip s
  /\ comment_of (s ++ String ";" c) = Some (rstrip_nl c)
  /\ forall c', fmap fst (process_line cfg A st (s ++ String ";" c))
                = fmap fst (process_line cfg A st (s ++ String ";" c')).
Proof.
  intro H. destruct (clean_of_commented s c H) as [H1 H2].
  split; [exact H1 | split; [exact H2 |]].
  intro c'. destruct (clean_of_commented s c' H) as [H1' H2'].
  rewrite !process_line_by_kind. unfold classify. rewrite H1, H1'.
  destruct (is_empty (strip s)); [reflexivity|].
  destruct (re_match_G90 (strip s)); [reflexivity|].
  destruct (re_match_G91 (strip s)); [reflexivity|].
  destruct (re_match_motion (strip s)); [| reflexivity].
  destruct (parse_axis "X" (strip s)) as [x | e |]; cbn [bind fmap]; [| reflexivity ..].
  destruct (parse_axis "Y" (strip s)) as [y | e |]; cbn [bind fmap]; [| reflexivity ..].
  destruct (negb (is_some x || is_some y) || negb (transform_requested cfg)); [reflexivity|].
  destruct (finite_coord x) as [cx |]; [| reflexivity].
  destruct (finite_coord y) as [cy |]; [| reflexivity].
  unfold transform_motion. destruct (motion_tokens cfg A st cx cy) as [[p tx] ty].
  reflexivity.
Qed.

(** *** The old tokens *)

Lemma starts_nonspace_begins_blank (s : string) :
  starts_nonspace s = true -> begins_blank s = false.
Proof. destruct s as [| c s]; cbn; [discriminate|]. now destruct (is_space c). Qed.

(** After a match the scan resumes at whitespace or at the end. *)
Lemma re_sub_xy_inside_begins_blank (s : string) :
  begins_blank (re_sub_xy_from true s) = true.
Proof.
  induction s as [| a tl IH]; [reflexivity|].
  cbn [re_sub_xy_from andb]. destruct (is_space a) eqn:Ea; cbn [negb].
  - destruct (xy_token_starts a tl); [exact IH | cbn; exact Ea].
  - exact IH.
Qed.

(** A letter followed by a character that is not whitespace, at the head
    of what the scan leaves, stood the same way in the text. *)
Lemma re_sub_xy_head (c : ascii) (rest tl : string) :
  is_space c = false ->
  re_sub_xy_from false tl = String c rest ->
  starts_nonspace rest = true ->
  exists tl', tl = String c tl' /\ starts_nonspace tl' = true.
Proof.
  intros Hc H Hrest. destruct tl as [| c0 tl0]; [discriminate|].
  cbn [re_sub_xy_from andb] in H.
  destruct (xy_token_starts c0 tl0).
  - pose proof (re_sub_xy_inside_begins_blank tl0) as Hb. rewrite H in Hb.
    cbn in Hb. congruence.
  - injection H as -> Hr. exists tl0. split; [reflexivity|].
    destruct tl0 as [| d tl1]; [subst rest; discriminate|].
    cbn [re_sub_xy_from andb] in Hr.
    destruct (xy_token_starts d tl1) eqn:Ed.
    + pose proof (re_sub_xy_inside_begins_blank tl1) as Hb. rewrite Hr in Hb.
      rewrite (starts_nonspace_begins_blank rest Hrest) in Hb. discriminate.
    + subst rest. exact Hrest.
Qed.

Lemma re_sub_xy_from_no_token (p : ascii) (inside : bool) (s : string) :
  p = "X"%char \/ p = "Y"%char ->
  re_search_axis p (re_sub_xy_from inside s) = None.
Proof.
  intro Hp. revert inside. induction s as [| a tl IH]; intro inside; [reflexivity|].
  cbn [re_sub_xy_from].
  destruct (inside && negb (is_space a)); [apply IH|].
  destruct (xy_token_starts a tl) eqn:Et; [apply IH|].
  cbn [re_search_axis].
  destruct (re_sub_xy_from false tl) as [| c rest] eqn:Eo; [reflexivity|].
  destruct (Ascii.eqb a " " && Ascii.eqb c p && starts_nonspace rest) eqn:Ec.
  - exfalso. apply andb_prop in Ec. destruct Ec as [Ec Hrest].
    apply andb_prop in Ec. destruct Ec as [Ea Ecp].
    apply Ascii.eqb_eq in Ecp. subst c.
    assert (Hsp : is_space p = false) by (destruct Hp; subst p; reflexivity).
    destruct (re_sub_xy_head p rest tl Hsp Eo Hrest) as (tl' & -> & Hn).
    unfold xy_token_starts in Et. rewrite Ea, Hn in Et.
    destruct Hp; subst p; discriminate.
  - rewrite <- Eo. apply IH.
Qed.

(** X9 - the removal of the old coordinates leaves none behind: in what
    [re.sub] returns, neither of the two searches finds a token, so that
    every X or Y token of a rebuilt line is a new one. *)
Theorem no_old_token_is_left (s : string) :
  has_xy_token (re_sub_xy s) = false.
Proof.
  unfold has_xy_token, re_sub_xy.
  rewrite !re_sub_xy_from_no_token by auto. reflexivity.
Qed.

(** *** The center *)

Lemma split_once_some (sep : ascii) (s a b : string) :
  split_once sep s = (a, Some b) ->
  s = (a ++ String sep b)%string /\ contains sep a = false.
Proof.
  revert a. induction s as [| c tl IH]; intros a H; cbn [split_once] in H;
    [discriminate|].
  destruct (Ascii.eqb c sep) eqn:Ec.
  - injection H as <- <-. apply Ascii.eqb_eq in Ec. subst c. split; reflexivity.
  - destruct (split_once sep tl) as [h r] eqn:Es. injection H as <- ->.
    destruct (IH h eq_refl) as [-> Hc]. split; [reflexivity|].
    unfold contains in *. cbn [list_ascii_of_string existsb].
    rewrite Ascii.eqb_sym, Ec. exact Hc.
Qed.

(** X10 - [coord_pair] returns a pair exactly for the texts made of two
    parts without [x], one [x] between them, both accepted by [float]; the
    pair is that of the two values.  Every other text raises. *)
Theorem coord_pair_accepts (s : string) (x y : pyfloat) :
  coord_pair s = Ok (x, y)
  <-> exists a b, s = (a ++ String "x" b)%string
                  /\ contains "x" a = false /\ contains "x" b = false
                  /\ float a = Some x /\ float b = Some y.
Proof.
  split.
  - unfold coord_pair.
    destruct (split_all "x" s) as [| a [| b [| c r]]] eqn:E; try discriminate.
    destruct (split_all_two s a b E) as [H1 H2].
    destruct (split_once_some "x" s a b H1) as [Hs Ha].
    destruct (float a) as [u |] eqn:Fa; [| discriminate].
    destruct (float b) as [v |] eqn:Fb; [| discriminate].
    intro H. injection H as <- <-. exists a, b. auto.
  - intros (a & b & -> & Ha & Hb & Fa & Fb). unfold coord_pair.
    rewrite (split_once_two _ a b (split_once_at "x" a b Ha) Hb), Fa, Fb. reflexivity.
Qed.

(** *** The whole run *)

Section RunProperties.

Variables np_radians np_cos np_sin : Qc -> Qc.
Variable float_repr : Qc -> string.

Local Abbreviation build := (build_transform np_radians np_cos np_sin).
Local Abbreviation run := (transform_gcode np_radians np_cos np_sin float_repr).

(** X1 - a run that prints has the four entries of the header and then one
    line for each line of the input, in the order of the input; a line
    that is not a motion command is there as it was, less its newline. *)
Theorem printed_lines_in_order (cfg : config) (lines : list string)
    (stderr : list diag) (out : list string) :
  run cfg lines = Printed stderr out ->
  exists body,
    out = (header float_repr cfg ++ body)%list
    /\ List.length out = (4 + List.length lines)%nat
    /\ Forall2 (fun l o => classify l <> Motion -> o = rstrip_nl l) lines body.
Proof.
  unfold transform_gcode.
  destruct (coord_pair (center_str cfg)) as [center | e |]; try discriminate.
  destruct (build cfg center) as [A | e |]; try discriminate.
  destruct (process_lines cfg A initial_state lines) as [[st body] | e |] eqn:E;
    try discriminate.
  intro H. injection H as _ <-. exists body.
  pose proof (process_lines_in_order cfg A lines initial_state st body E) as HF.
  split; [reflexivity | split; [| exact HF]].
  cbn [Datatypes.length]. rewrite <- (Forall2_length HF). reflexivity.
Qed.

(** X12 - the matrix can always be built: the translation to the center
    has determinant 1, so that [np.linalg.inv] never raises, and no run
    ends on a [LinAlgError]. *)
Theorem matrix_is_never_singular (cfg : config) (lines : list string)
    (center : pyfloat * pyfloat) (stderr : list diag) :
  (forall e, build cfg center <> Raise e)
  /\ run cfg lines <> Uncaught stderr LinAlgError.
Proof.
  assert (Hb : forall c e, build cfg c <> Raise e).
  { intros c e. unfold build_transform, rotation_parts.
    destruct (is_rotation_requested cfg); [| discriminate].
    destruct c as [[cx |] [cy |]]; try discriminate.
    rewrite inv_translation. discriminate. }
  split; [apply Hb|].
  unfold transform_gcode.
  destruct (coord_pair (center_str cfg)) as [c | e |] eqn:Ec.
  - pose proof (Hb c) as Hc.
    destruct (build cfg c) as [A | e |]; [| elim (Hc e); reflexivity | discriminate].
    destruct (process_lines cfg A initial_state lines) as [[st body] | e |]; discriminate.
  - unfold coord_pair in Ec.
    destruct (split_all "x" (center_str cfg)) as [| a [| b [| c r]]];
      try (injection Ec as <-; discriminate).
    destruct (float a); [destruct (float b) |]; try discriminate;
      injection Ec as <-; discriminate.
  - discriminate.
Qed.


End RunProperties.

(** *** Instances of the further properties *)

(** A translation of three lines. *)
Lemma printed_lines_in_order_witness :
  let cfg := shift_by None 5 0 in
  let lines := [line "G90"; line "G1 X1"; line "M84"] in
  let out := (header Bhaskara.repr cfg ++ ["G90"; "G1 X6.000"; "M84"])%list in
  exists body,
    out = (header Bhaskara.repr cfg ++ body)%list
    /\ List.length out = (4 + List.length lines)%nat
    /\ Forall2 (fun l o => classify l <> Motion -> o = rstrip_nl l) lines body.
Proof.
  intros cfg lines out.
  apply (printed_lines_in_order Bhaskara.radians Bhaskara.cos Bhaskara.sin Bhaskara.repr
           cfg lines []).
  vm_compute. reflexivity.
Defined.

(** Two mode commands, the second one last. *)
Lemma mode_is_last_command_witness :
  let lines := [line "G91"; line "G1 X1"; line "G90 ; absolute"; line "M84"] in
  rel {| pos := (0, 0); rel := Some false |} = last_mode (rel initial_state) lines.
Proof.
  intro lines.
  apply (mode_is_last_command (shift_by None 0 0) identity3 lines initial_state
           {| pos := (0, 0); rel := Some false |}
           ["G91"; "G1 X1"; "G90 ; absolute"; "M84"]).
  reflexivity.
Defined.

(** A move in Z with a feed rate. *)
Lemma motion_without_xy_is_copied_witness :
  process_line (shift_by None 5 0) (translation (Z2Qc 5) 0) initial_state
    (line "G1 Z5 F300")
  = Ok (initial_state, rstrip_nl (line "G1 Z5 F300")).
Proof.
  apply motion_without_xy_is_copied; reflexivity.
Defined.

(** A line with both axes, from a cursor that is elsewhere. *)
Lemma absolute_full_line_witness :
  let cfg := shift_by None 0 5 in
  let A := translation 0 (Z2Qc 5) in
  let st := {| pos := (Z2Qc 3, Z2Qc 4); rel := Some false |} in
  let l := line "G1 X10 Y0" in
  process_line cfg A st l
  = Ok ({| pos := apply A (Z2Qc 10, 0); rel := rel st |},
        rebuild (clean_of l) (comment_of l)
          (Some ("X" ++ format_coord (precision cfg) (fst (apply A (Z2Qc 10, 0)))))
          (Some ("Y" ++ format_coord (precision cfg) (snd (apply A (Z2Qc 10, 0)))))).
Proof.
  intros cfg A st l. apply absolute_full_line; reflexivity.
Defined.

(** A comment that looks like a coordinate. *)
Lemma comment_is_never_parsed_witness :
  let s := "G1 X1 " in
  let c := " X99" in
  clean_of (s ++ String ";" c) = strip s
  /\ comment_of (s ++ String ";" c) = Some (rstrip_nl c)
  /\ forall c', fmap fst (process_line (shift_by None 5 0) (translation (Z2Qc 5) 0)
                            initial_state (s ++ String ";" c))
                = fmap fst (process_line (shift_by None 5 0) (translation (Z2Qc 5) 0)
                              initial_state (s ++ String ";" c')).
Proof.
  intros s c. apply comment_is_never_parsed. reflexivity.
Defined.

